(** * Verification model of the crawler fleet engine (app/routers/crawlers.py)

    Shallow embedding of the heartbeat, status, log quota, config
    assignment, command queue and alert rule code of [app/routers/crawlers.py].

    Conventions of the model:
    - a [datetime] is a [Z] counting microseconds (the resolution of Python's
      datetime); [now()] is passed explicitly as an argument;
    - database ids are [positive]: rows get autoincrement ids starting at 1,
      so Python's truthiness test on an id ([if crawler.api_key_id:]) is the
      test [is Some];
    - Python strings are [string]; a nullable column is an [option]. *)

From Stdlib Require Import ZArith Lia Sorted.
From Stdlib Require QArith_base.
From stdpp Require Import base gmap list strings.

Open Scope Z_scope.
Set Warnings "-register-all".

(* ------------------------------------------------------------------ *)
(** ** Time and generic helpers *)

Definition US_PER_SECOND : Z := 1000000.

(** [py_or_str o d] is Python's [o or d] for an [Optional[str]]:
    [None] and the empty string are falsy. *)
Definition py_or_str (o : option string) (d : string) : string :=
  match o with
  | Some s => if String.eqb s "" then d else s
  | None => d
  end.

(** [int(x or d)] for an [int] setting: [0] is falsy. *)
Definition py_int_or (v d : Z) : Z := if v =? 0 then d else v.

(** Stable insertion sort on an integer key: the [ORDER BY key ASC] of the
    queries (rows with equal keys keep their table order). *)
Fixpoint insert_by {A} (key : A -> Z) (x : A) (l : list A) : list A :=
  match l with
  | [] => [x]
  | y :: l' => if key y <=? key x then y :: insert_by key x l' else x :: y :: l'
  end.

Fixpoint sort_by {A} (key : A -> Z) (l : list A) : list A :=
  match l with
  | [] => []
  | x :: l' => insert_by key x (sort_by key l')
  end.

(** [.limit(n)] *)
Definition limit {A} (n : nat) (l : list A) : list A := take n l.

(* ------------------------------------------------------------------ *)
(** ** Data model (app/models.py) *)

(** JSON documents as Python holds them after [json.loads]: integers are
    unbounded, floats are modelled by rationals (rounding is not modelled). *)
Inductive json : Type :=
| JNull
| JBool (b : bool)
| JInt (z : Z)
| JFloat (q : QArith_base.Q)
| JStr (s : string)
| JArr (l : list json)
| JObj (kvs : list (string * json)).

(** A Python [dict] loaded from JSON: an association list with unique keys. *)
Definition dict := list (string * json).

(** The columns of [models.Crawler] read or written by the modelled code.
    The table has no [log_max_lines] or [log_max_bytes] column. *)
Record Crawler := mkCrawler {
  cr_id : positive;
  cr_user_id : positive;
  cr_api_key_id : option positive;
  cr_group_id : option positive;
  cr_status : string;
  cr_status_changed_at : option Z;
  cr_last_heartbeat : option Z;
  cr_last_source_ip : option string;
  cr_last_device_name : option string;
  cr_heartbeat_payload : option dict
}.

(** Settings of app/config.py used by the code below. *)
Record Settings := mkSettings {
  DEFAULT_CRAWLER_LOG_MAX_LINES : Z;
  DEFAULT_CRAWLER_LOG_MAX_BYTES : Z;
  LOG_TRIM_CHUNK_LINES : Z
}.

Definition default_settings : Settings :=
  mkSettings 1000000 (100 * 1024 * 1024) 10000.

(* ------------------------------------------------------------------ *)
(** ** Status deriver: [_compute_status] *)

Definition HEARTBEAT_ONLINE_SECONDS : Z := 5 * 60.
Definition HEARTBEAT_WARN_SECONDS : Z := 15 * 60.

(** [_compute_status(last_heartbeat)] evaluated at time [now_];
    [delta.total_seconds() <= S] is [delta_us <= S * 10^6]. *)
Definition _compute_status (now_ : Z) (last_heartbeat : option Z) : string :=
  match last_heartbeat with
  | None => "offline"
  | Some lh =>
      let delta := now_ - lh in
      if delta <=? HEARTBEAT_ONLINE_SECONDS * US_PER_SECOND then "online"
      else if delta <=? HEARTBEAT_WARN_SECONDS * US_PER_SECOND then "warning"
      else "offline"
  end.

(** Degradation order of the three statuses. *)
Definition status_rank (s : string) : Z :=
  if String.eqb s "online" then 0
  else if String.eqb s "warning" then 1
  else 2.

(* ------------------------------------------------------------------ *)
(** ** Exceptions *)

(** The exceptions the modelled code can raise. *)
Inductive exn : Type :=
| HTTPException (status_code : Z)
| OverflowError
| AttributeError
| ValueError.

Inductive outcome (A : Type) : Type :=
| Ok (a : A)
| Raise (e : exn).
Arguments Ok {A}.
Arguments Raise {A}.

Definition obind {A B} (m : outcome A) (k : A -> outcome B) : outcome B :=
  match m with
  | Ok a => k a
  | Raise e => Raise e
  end.

Notation "'let?' x := m 'in' k" := (obind m (fun x => k))
  (at level 200, x name, m at level 200, k at level 200).

(* ------------------------------------------------------------------ *)
(** ** Log quota: [_effective_crawler_limits], [_enforce_crawler_limits] *)

(** [TRIM_CHUNK = max(1000, int(settings.LOG_TRIM_CHUNK_LINES or 10_000))] *)
Definition TRIM_CHUNK (s : Settings) : Z :=
  Z.max 1000 (py_int_or (LOG_TRIM_CHUNK_LINES s) 10000).

(** [crawler.log_max_lines] and [crawler.log_max_bytes] on a crawler loaded
    from the database: [models.Crawler] declares no such columns (and no
    migration adds them), so the attribute read raises [AttributeError]. *)
Definition crawler_log_max_lines (c : Crawler) : outcome (option Z) := Raise AttributeError.
Definition crawler_log_max_bytes (c : Crawler) : outcome (option Z) := Raise AttributeError.

Section EffectiveLimits.
(** The body of [_effective_crawler_limits] over the two attribute reads. *)
Variables read_log_max_lines read_log_max_bytes : Crawler -> outcome (option Z).

Definition effective_crawler_limits_with (s : Settings) (c : Crawler)
  : outcome (option Z * option Z) :=
  let? stored_lines := read_log_max_lines c in
  let max_lines :=
    match stored_lines with
    | None => Some (py_int_or (DEFAULT_CRAWLER_LOG_MAX_LINES s) 1000000)
    | Some v => if v <=? 0 then None else Some v
    end in
  let? stored_bytes := read_log_max_bytes c in
  let max_bytes :=
    match stored_bytes with
    | None => Some (py_int_or (DEFAULT_CRAWLER_LOG_MAX_BYTES s) (100 * 1024 * 1024))
    | Some v => if v <=? 0 then None else Some v
    end in
  Ok (max_lines, max_bytes).
End EffectiveLimits.

(** [_effective_crawler_limits(crawler)] *)
Definition _effective_crawler_limits (s : Settings) (c : Crawler)
  : outcome (option Z * option Z) :=
  effective_crawler_limits_with crawler_log_max_lines crawler_log_max_bytes s c.

(** One stored log row; [length(message)] is the string length. *)
Record LogEntry := mkLogEntry {
  log_id : positive;
  log_crawler_id : positive;
  log_message : string
}.

(** [_measure_crawler_usage] *)
Definition _measure_crawler_usage (logs : list LogEntry) (crawler_id : positive)
  : Z * Z :=
  let rows := filter (fun e => log_crawler_id e = crawler_id) logs in
  (Z.of_nat (length rows),
   fold_right (fun e acc => Z.of_nat (String.length (log_message e)) + acc) 0 rows).

(** [_delete_oldest_crawler_logs]: the [n] smallest ids of the crawler's
    rows are deleted; returns the new table and the number deleted. *)
Definition _delete_oldest_crawler_logs (logs : list LogEntry) (crawler_id : positive)
    (n : Z) : list LogEntry * Z :=
  let n := Z.max 0 n in
  if n <=? 0 then (logs, 0) else
  let ids := map log_id
    (limit (Z.to_nat n)
       (sort_by (fun e => Zpos (log_id e))
          (filter (fun e => log_crawler_id e = crawler_id) logs))) in
  match ids with
  | [] => (logs, 0)
  | _ =>
      let kept := filter (fun e => log_id e ∉ ids) logs in
      (kept, Z.of_nat (length logs - length kept))
  end.

(** The amount the loop body decides to delete. *)
Definition need_delete_of (trim : Z) (max_lines max_bytes : option Z)
    (lines bytes_ : Z) : Z :=
  let need0 := 0 in
  let need1 :=
    match max_lines with
    | Some ml => if ml <? lines then Z.max need0 (Z.min trim (lines - ml)) else need0
    | None => need0
    end in
  match max_bytes with
  | Some mb => if mb <? bytes_ then Z.max need1 trim else need1
  | None => need1
  end.

(** Result of the loop: the table, ["deleted"], ["lines"], ["bytes"] and
    the final value of [loop_guard]. *)
Record EnforceResult (DB : Type) := mkEnforceResult {
  er_db : DB;
  er_deleted : Z;
  er_lines : Z;
  er_bytes : Z;
  er_loop_guard : nat
}.
Arguments mkEnforceResult {DB}.
Arguments er_db {DB}.
Arguments er_deleted {DB}.
Arguments er_lines {DB}.
Arguments er_bytes {DB}.
Arguments er_loop_guard {DB}.

Section EnforceLoop.
(** The loop is stated over any measurement and deletion: the table may
    also change between two statements (concurrent writers). *)
Context {DB : Type}.
Variable measure : DB -> positive -> Z * Z.
Variable delete_oldest : DB -> positive -> Z -> DB * Z.
Variable trim : Z.
Variable crawler_id : positive.
Variables max_lines max_bytes : option Z.

(** The [while True] loop of [_enforce_crawler_limits]; [fuel] bounds the
    number of iterations the model may run, running out of it is
    divergence ([None]). *)
Fixpoint enforce_loop (fuel : nat) (db : DB) (lines bytes_ deleted_total : Z)
    (loop_guard : nat) : option (EnforceResult DB) :=
  match fuel with
  | O => None
  | S fuel' =>
      let need_delete := need_delete_of trim max_lines max_bytes lines bytes_ in
      if need_delete <=? 0 then
        Some (mkEnforceResult db deleted_total lines bytes_ loop_guard)
      else
        let '(db', deleted) := delete_oldest db crawler_id need_delete in
        let deleted_total' := deleted_total + deleted in
        let '(lines', bytes') := measure db' crawler_id in
        let loop_guard' := S loop_guard in
        if (20 <=? loop_guard')%nat then
          Some (mkEnforceResult db' deleted_total' lines' bytes' loop_guard')
        else enforce_loop fuel' db' lines' bytes' deleted_total' loop_guard'
  end.
End EnforceLoop.

(** [_enforce_crawler_limits(db, crawler)]; its only exception is the one
    of its first statement, raised before anything is deleted. *)
Definition _enforce_crawler_limits (s : Settings) (fuel : nat)
    (logs : list LogEntry) (c : Crawler) : outcome (option (EnforceResult (list LogEntry))) :=
  let? limits := _effective_crawler_limits s c in
  let '(max_lines, max_bytes) := limits in
  let '(lines, bytes_) := _measure_crawler_usage logs (cr_id c) in
  Ok (enforce_loop _measure_crawler_usage _delete_oldest_crawler_logs (TRIM_CHUNK s)
        (cr_id c) max_lines max_bytes fuel logs lines bytes_ 0 0).

(* ------------------------------------------------------------------ *)
(** ** Config assignments: [_build_assignment_map], [_resolve_assignment_from_map] *)

Record ConfigAssignment := mkConfigAssignment {
  ca_id : positive;
  ca_user_id : positive;
  ca_name : string;
  ca_description : option string;
  ca_format : string;
  ca_content : string;
  ca_version : Z;
  ca_target_type : string;
  ca_target_id : positive;
  ca_is_active : bool;
  ca_template_id : option positive
}.

(** [dict[str, dict[int, CrawlerConfigAssignment]]] *)
Abbreviation AssignmentMap := (gmap string (gmap positive ConfigAssignment)).

Definition in_ids (x : positive) (ids : list positive) : bool :=
  existsb (fun y => Pos.eqb x y) ids.

(** [bucket = assignments.setdefault(item.target_type, {});
     bucket[item.target_id] = item] *)
Definition bucket_insert (m : AssignmentMap) (item : ConfigAssignment) : AssignmentMap :=
  let bucket := default ∅ (m !! ca_target_type item) in
  <[ca_target_type item := <[ca_target_id item := item]> bucket]> m.

(** [if ids:] a list is truthy when it is not empty. *)
Definition when_nonempty {A B} (ids : list A) (x : B) : list B :=
  match ids with [] => [] | _ => [x] end.

(** [_build_assignment_map(db, user_id, crawler_ids, api_key_ids, group_ids)]
    over the assignment table [rows] (in table order). *)
Definition _build_assignment_map (rows : list ConfigAssignment) (user_id : positive)
    (crawler_ids api_key_ids group_ids : list positive) : AssignmentMap :=
  let assignments : AssignmentMap :=
    <["crawler" := ∅]> (<["api_key" := ∅]> (<["group" := ∅]> ∅)) in
  let conditions : list (ConfigAssignment -> bool) :=
    when_nonempty crawler_ids
      (fun a => String.eqb (ca_target_type a) "crawler" && in_ids (ca_target_id a) crawler_ids)
    ++ when_nonempty api_key_ids
      (fun a => String.eqb (ca_target_type a) "api_key" && in_ids (ca_target_id a) api_key_ids)
    ++ when_nonempty group_ids
      (fun a => String.eqb (ca_target_type a) "group" && in_ids (ca_target_id a) group_ids) in
  match conditions with
  | [] => assignments
  | _ =>
      let rows_selected := filter (fun a =>
        Pos.eqb (ca_user_id a) user_id && ca_is_active a
        && existsb (fun cond => cond a) conditions = true) rows in
      foldl bucket_insert assignments rows_selected
  end.

(** [assignments.get(kind, {}).get(key)] *)
Definition map_get (assignments : AssignmentMap) (kind : string) (key : positive)
  : option ConfigAssignment :=
  default ∅ (assignments !! kind) !! key.

Definition _resolve_assignment_from_map (assignments : AssignmentMap) (c : Crawler)
  : option ConfigAssignment :=
  match map_get assignments "crawler" (cr_id c) with
  | Some a => Some a
  | None =>
      match (match cr_api_key_id c with
             | Some k => map_get assignments "api_key" k
             | None => None
             end) with
      | Some a => Some a
      | None =>
          match cr_group_id c with
          | Some g => map_get assignments "group" g
          | None => None
          end
      end
  end.

Definition option_list {A} (o : option A) : list A :=
  match o with Some x => [x] | None => [] end.

Definition _get_effective_assignment (rows : list ConfigAssignment)
    (user_id : positive) (c : Crawler) : option ConfigAssignment :=
  _resolve_assignment_from_map
    (_build_assignment_map rows user_id [cr_id c]
       (option_list (cr_api_key_id c)) (option_list (cr_group_id c)))
    c.

(* ------------------------------------------------------------------ *)
(** ** Config assignment update: [update_config_assignment] *)

Record User := mkUser {
  user_id : positive;
  user_role : string;
  user_group_enable_crawlers : option bool  (** [None]: no group *)
}.

Definition _ensure_crawler_feature (u : User) : outcome unit :=
  if String.eqb (user_role u) "admin" || String.eqb (user_role u) "superadmin"
  then Ok tt
  else match user_group_enable_crawlers u with
       | Some false => Raise (HTTPException 403)
       | _ => Ok tt
       end.

Record ConfigTemplate := mkConfigTemplate {
  tpl_id : positive;
  tpl_user_id : positive;
  tpl_name : string
}.

Record ConfigAssignmentUpdate := mkConfigAssignmentUpdate {
  upd_name : option string;
  upd_description : option string;
  upd_format : option string;
  upd_content : option string;
  upd_template_id : option Z;
  upd_is_active : option bool
}.

(** Characters removed by Python's [str.strip()] (the ASCII ones). *)
Definition is_py_space (ch : Ascii.ascii) : bool :=
  let n := Ascii.nat_of_ascii ch in
  ((9 <=? n) && (n <=? 13))%nat || ((28 <=? n) && (n <=? 32))%nat.

Fixpoint lstrip (s : string) : string :=
  match s with
  | EmptyString => EmptyString
  | String ch rest => if is_py_space ch then lstrip rest else s
  end.

Fixpoint rev_string (s : string) (acc : string) : string :=
  match s with
  | EmptyString => acc
  | String ch rest => rev_string rest (String ch acc)
  end.

Definition py_strip (s : string) : string :=
  rev_string (lstrip (rev_string (lstrip s) EmptyString)) EmptyString.

(** [str.lower()] on ASCII letters. *)
Fixpoint py_lower (s : string) : string :=
  match s with
  | EmptyString => EmptyString
  | String ch rest =>
      let n := Ascii.nat_of_ascii ch in
      String (if ((65 <=? n) && (n <=? 90))%nat then Ascii.ascii_of_nat (n + 32) else ch)
        (py_lower rest)
  end.

Definition _normalize_config_format (value : option string) : string :=
  let lowered := py_lower (py_or_str value "json") in
  if String.eqb lowered "yaml" then "yaml" else "json".

(** [_get_template_for_user] for a non-zero [template_id]. *)
Definition _get_template_for_user (templates : gmap positive ConfigTemplate)
    (u : User) (template_id : Z) : outcome ConfigTemplate :=
  match template_id with
  | Zpos p =>
      match templates !! p with
      | Some t => if Pos.eqb (tpl_user_id t) (user_id u) then Ok t
                  else Raise (HTTPException 404)
      | None => Raise (HTTPException 404)
      end
  | _ => Raise (HTTPException 404)
  end.

Definition ca_set_name (a : ConfigAssignment) (v : string) :=
  mkConfigAssignment (ca_id a) (ca_user_id a) v (ca_description a) (ca_format a)
    (ca_content a) (ca_version a) (ca_target_type a) (ca_target_id a)
    (ca_is_active a) (ca_template_id a).
Definition ca_set_description (a : ConfigAssignment) (v : option string) :=
  mkConfigAssignment (ca_id a) (ca_user_id a) (ca_name a) v (ca_format a)
    (ca_content a) (ca_version a) (ca_target_type a) (ca_target_id a)
    (ca_is_active a) (ca_template_id a).
Definition ca_set_format (a : ConfigAssignment) (v : string) :=
  mkConfigAssignment (ca_id a) (ca_user_id a) (ca_name a) (ca_description a) v
    (ca_content a) (ca_version a) (ca_target_type a) (ca_target_id a)
    (ca_is_active a) (ca_template_id a).
Definition ca_set_content_version (a : ConfigAssignment) (c : string) (v : Z) :=
  mkConfigAssignment (ca_id a) (ca_user_id a) (ca_name a) (ca_description a)
    (ca_format a) c v (ca_target_type a) (ca_target_id a)
    (ca_is_active a) (ca_template_id a).
Definition ca_set_template (a : ConfigAssignment) (v : option positive) :=
  mkConfigAssignment (ca_id a) (ca_user_id a) (ca_name a) (ca_description a)
    (ca_format a) (ca_content a) (ca_version a) (ca_target_type a) (ca_target_id a)
    (ca_is_active a) v.
Definition ca_set_is_active (a : ConfigAssignment) (v : bool) :=
  mkConfigAssignment (ca_id a) (ca_user_id a) (ca_name a) (ca_description a)
    (ca_format a) (ca_content a) (ca_version a) (ca_target_type a) (ca_target_id a)
    v (ca_template_id a).

(** [update_config_assignment]: returns the committed table and the
    updated row; an exception commits nothing. *)
Definition update_config_assignment (assignments : gmap positive ConfigAssignment)
    (templates : gmap positive ConfigTemplate) (assignment_id : positive)
    (payload : ConfigAssignmentUpdate) (current_user : User)
  : outcome (gmap positive ConfigAssignment * ConfigAssignment) :=
  let? _ := _ensure_crawler_feature current_user in
  let? a0 := (match assignments !! assignment_id with
          | Some a => if Pos.eqb (ca_user_id a) (user_id current_user) then Ok a
                      else Raise (HTTPException 404)
          | None => Raise (HTTPException 404)
          end) in
  let? a1 := (match upd_name payload with
          | Some n =>
              let new_name := py_strip n in
              if String.eqb new_name "" then Raise (HTTPException 400)
              else Ok (ca_set_name a0 new_name)
          | None => Ok a0
          end) in
  let a2 := match upd_description payload with
            | Some d => ca_set_description a1 (Some d)
            | None => a1
            end in
  let a3 := match upd_format payload with
            | Some f => ca_set_format a2 (_normalize_config_format (Some f))
            | None => a2
            end in
  let? a4 := (match upd_content payload with
          | Some c =>
              let cleaned := py_strip c in
              if String.eqb cleaned "" then Raise (HTTPException 400)
              else if negb (String.eqb cleaned (ca_content a3))
                   then Ok (ca_set_content_version a3 cleaned (ca_version a3 + 1))
                   else Ok a3
          | None => Ok a3
          end) in
  let? a5 := (match upd_template_id payload with
          | Some tid =>
              if negb (tid =? 0) then
                let? t := _get_template_for_user templates current_user tid in
                Ok (ca_set_template a4 (Some (tpl_id t)))
              else Ok (ca_set_template a4 None)
          | None => Ok a4
          end) in
  let a6 := match upd_is_active payload with
            | Some b => ca_set_is_active a5 b
            | None => a5
            end in
  Ok (<[assignment_id := a6]> assignments, a6).

(* ------------------------------------------------------------------ *)
(** ** Command queue: [fetch_commands], [acknowledge_command] *)

Record Command := mkCommand {
  cmd_id : positive;
  cmd_crawler_id : positive;
  cmd_command : string;
  cmd_payload : option dict;
  cmd_status : string;
  cmd_result : option dict;
  cmd_created_at : Z;
  cmd_expires_at : option Z;
  cmd_processed_at : option Z
}.

Definition COMMAND_FETCH_BATCH : nat := 5.

(** The crawler lookup shared by the worker endpoints:
    [Crawler.id == crawler_id, Crawler.user_id == api_key.user_id]. *)
Definition find_user_crawler (crawlers : gmap positive Crawler)
    (user : positive) (crawler_id : positive) : outcome Crawler :=
  match crawlers !! crawler_id with
  | Some c => if Pos.eqb (cr_user_id c) user then Ok c else Raise (HTTPException 404)
  | None => Raise (HTTPException 404)
  end.

Definition fetch_filter (crawler_id : positive) (now_ : Z) (c : Command) : bool :=
  Pos.eqb (cmd_crawler_id c) crawler_id
  && String.eqb (cmd_status c) "pending"
  && match cmd_expires_at c with
     | None => true
     | Some e => now_ <=? e
     end.

(** [fetch_commands(crawler_id)] with [api_key.user_id = user] at time [now_]. *)
Definition fetch_commands (crawlers : gmap positive Crawler)
    (commands : gmap positive Command) (user : positive) (crawler_id : positive)
    (now_ : Z) : outcome (list Command) :=
  let? _ := find_user_crawler crawlers user crawler_id in
  Ok (limit COMMAND_FETCH_BATCH
        (sort_by cmd_created_at
           (filter (fun c => fetch_filter crawler_id now_ c = true)
              (map snd (map_to_list commands))))).

Record CommandAck := mkCommandAck {
  ack_status : option string;
  ack_result : option dict
}.

(** [payload.result or {}] *)
Definition dict_or_empty (d : option dict) : dict :=
  match d with Some d' => d' | None => [] end.

(** The three assignments of [acknowledge_command]. *)
Definition apply_ack (p : CommandAck) (now_ : Z) (c : Command) : Command :=
  mkCommand (cmd_id c) (cmd_crawler_id c) (cmd_command c) (cmd_payload c)
    (py_or_str (ack_status p) "done") (Some (dict_or_empty (ack_result p)))
    (cmd_created_at c) (cmd_expires_at c) (Some now_).

(** [acknowledge_command(crawler_id, command_id, payload)]: returns the
    committed table and the refreshed row. *)
Definition acknowledge_command (crawlers : gmap positive Crawler)
    (commands : gmap positive Command) (user : positive) (crawler_id command_id : positive)
    (payload : CommandAck) (now_ : Z) : outcome (gmap positive Command * Command) :=
  match commands !! command_id with
  | Some c =>
      if Pos.eqb (cmd_crawler_id c) crawler_id
         && match crawlers !! cmd_crawler_id c with
            | Some cr => Pos.eqb (cr_user_id cr) user
            | None => false
            end
      then let c' := apply_ack payload now_ c in Ok (<[command_id := c']> commands, c')
      else Raise (HTTPException 404)
  | None => Raise (HTTPException 404)
  end.

(* ------------------------------------------------------------------ *)
(** ** Alert rules, states and events *)

Record AlertRule := mkAlertRule {
  ar_id : positive;
  ar_user_id : positive;
  ar_trigger_type : string;
  ar_target_type : string;
  ar_target_ids : option (list Z);
  ar_payload_field : option string;
  ar_comparator : option string;
  ar_threshold : option QArith_base.Q;
  ar_consecutive_failures : option Z;
  ar_cooldown_minutes : option Z;
  ar_is_active : bool;
  ar_last_triggered_at : option Z
}.

Definition ar_set_last_triggered_at (r : AlertRule) (t : Z) : AlertRule :=
  mkAlertRule (ar_id r) (ar_user_id r) (ar_trigger_type r) (ar_target_type r)
    (ar_target_ids r) (ar_payload_field r) (ar_comparator r) (ar_threshold r)
    (ar_consecutive_failures r) (ar_cooldown_minutes r) (ar_is_active r) (Some t).

Record AlertState := mkAlertState {
  as_rule_id : positive;
  as_crawler_id : positive;
  as_user_id : positive;
  as_consecutive_hits : Z;
  as_last_triggered_at : option Z;
  as_last_status : option string;
  as_last_value : option QArith_base.Q;
  as_context : option dict
}.

Definition as_set_hits (s : AlertState) (h : Z) : AlertState :=
  mkAlertState (as_rule_id s) (as_crawler_id s) (as_user_id s) h
    (as_last_triggered_at s) (as_last_status s) (as_last_value s) (as_context s).
Definition as_set_last_status (s : AlertState) (v : string) : AlertState :=
  mkAlertState (as_rule_id s) (as_crawler_id s) (as_user_id s) (as_consecutive_hits s)
    (as_last_triggered_at s) (Some v) (as_last_value s) (as_context s).
Definition as_set_last_value (s : AlertState) (v : option QArith_base.Q) : AlertState :=
  mkAlertState (as_rule_id s) (as_crawler_id s) (as_user_id s) (as_consecutive_hits s)
    (as_last_triggered_at s) (as_last_status s) v (as_context s).
Definition as_set_context (s : AlertState) (v : dict) : AlertState :=
  mkAlertState (as_rule_id s) (as_crawler_id s) (as_user_id s) (as_consecutive_hits s)
    (as_last_triggered_at s) (as_last_status s) (as_last_value s) (Some v).
Definition as_set_last_triggered_at (s : AlertState) (t : Z) : AlertState :=
  mkAlertState (as_rule_id s) (as_crawler_id s) (as_user_id s) (as_consecutive_hits s)
    (Some t) (as_last_status s) (as_last_value s) (as_context s).

(** An alert event; the message text and payload snapshot are not modelled. *)
Record AlertEvent := mkAlertEvent {
  ev_rule_id : positive;
  ev_crawler_id : positive;
  ev_user_id : positive;
  ev_triggered_at : Z;
  ev_status : string
}.

Definition ev_set_status (e : AlertEvent) (v : string) : AlertEvent :=
  mkAlertEvent (ev_rule_id e) (ev_crawler_id e) (ev_user_id e) (ev_triggered_at e) v.

(** [_match_alert_rule_target] *)
Definition _match_alert_rule_target (rule : AlertRule) (c : Crawler) : bool :=
  let targets := match ar_target_ids rule with Some l => l | None => [] end in
  if String.eqb (ar_target_type rule) "all" || (match targets with [] => true | _ => false end)
  then true
  else if String.eqb (ar_target_type rule) "crawler" then
    existsb (Z.eqb (Zpos (cr_id c))) targets
  else if String.eqb (ar_target_type rule) "api_key" then
    match cr_api_key_id c with
    | Some k => existsb (Z.eqb (Zpos k)) targets
    | None => false                      (* [None in targets] *)
    end
  else if String.eqb (ar_target_type rule) "group" then
    existsb (Z.eqb (match cr_group_id c with Some g => Zpos g | None => 0 end)) targets
  else false.

(** [max(rule.consecutive_failures or 1, 1)] *)
Definition required_hits (rule : AlertRule) : Z :=
  Z.max (match ar_consecutive_failures rule with
         | Some v => py_int_or v 1
         | None => 1
         end) 1.

(** [_in_cooldown(rule, state)] at time [now_]. *)
Definition _in_cooldown (now_ : Z) (rule : AlertRule) (st : AlertState) : bool :=
  let cooldown := Z.max (match ar_cooldown_minutes rule with Some v => v | None => 0 end) 0 in
  if cooldown <=? 0 then false
  else match as_last_triggered_at st with
       | None => false
       | Some lt => (now_ - lt) <? cooldown * 60 * US_PER_SECOND
       end.

(** [_evaluate_status_rule]: the trigger flag and the updated state. *)
Definition _evaluate_status_rule (rule : AlertRule) (st : AlertState)
    (previous_status : option string) (current_status : string) : bool * AlertState :=
  if negb (String.eqb current_status "offline") then
    (false, as_set_last_status (as_set_hits st 0) current_status)
  else
    let hits :=
      match previous_status with
      | Some p => if String.eqb p "offline" then as_consecutive_hits st + 1 else 1
      | None => 1
      end in
    let st' := as_set_last_status (as_set_hits st hits) current_status in
    if hits <? required_hits rule then (false, st') else (true, st').

(** [_get_nested_payload_value(payload, field_path)]; Python's [None]
    (a missing key) and JSON [null] are both [JNull]. *)
Fixpoint split_on_dot_aux (s : string) (cur : string) : list string :=
  match s with
  | EmptyString => [rev_string cur EmptyString]
  | String ch rest =>
      if Ascii.eqb ch (Ascii.ascii_of_nat 46) (* "." *) then rev_string cur EmptyString :: split_on_dot_aux rest EmptyString
      else split_on_dot_aux rest (String ch cur)
  end.

(** [field_path.split('.')] *)
Definition split_on_dot (s : string) : list string := split_on_dot_aux s EmptyString.

Fixpoint assoc_get (k : string) (kvs : list (string * json)) : option json :=
  match kvs with
  | [] => None
  | (k', v) :: rest => if String.eqb k k' then Some v else assoc_get k rest
  end.

Fixpoint walk_path (current : json) (parts : list string) : json :=
  match parts with
  | [] => current
  | part :: rest =>
      match current with
      | JObj kvs =>
          match assoc_get part kvs with
          | Some v => walk_path v rest
          | None => JNull
          end
      | _ => JNull
      end
  end.

Definition _get_nested_payload_value (payload : option dict) (field_path : option string) : json :=
  match payload, field_path with
  | Some ((_ :: _) as d), Some fp =>
      if String.eqb fp "" then JNull else walk_path (JObj d) (split_on_dot fp)
  | _, _ => JNull
  end.

(** Python's [float(n)] for an [int]: raises [OverflowError] when [n]
    rounds beyond the largest double, i.e. [|n| >= 2^1024 - 2^970]. *)
Definition py_float_of_int (n : Z) : outcome QArith_base.Q :=
  if 2 ^ 1024 - 2 ^ 970 <=? Z.abs n then Raise OverflowError
  else Ok (QArith_base.inject_Z n).

(** [float(value) if isinstance(value, (int, float)) else None];
    [bool] is a subclass of [int] in Python. *)
Definition last_value_of (value : json) : outcome (option QArith_base.Q) :=
  match value with
  | JInt z => let? q := py_float_of_int z in Ok (Some q)
  | JBool b => Ok (Some (QArith_base.inject_Z (if b then 1 else 0)))
  | JFloat q => Ok (Some q)
  | _ => Ok None
  end.

(** [dict.update({k: v})] *)
Fixpoint dict_set (k : string) (v : json) (d : dict) : dict :=
  match d with
  | [] => [(k, v)]
  | (k', v') :: rest => if String.eqb k k' then (k, v) :: rest else (k', v') :: dict_set k v rest
  end.

(* ------------------------------------------------------------------ *)
(** ** The database of one request and its session *)

Record HeartbeatRow := mkHeartbeatRow {
  hb_crawler_id : positive;
  hb_api_key_id : positive;
  hb_status : string;
  hb_payload : dict;
  hb_source_ip : option string;
  hb_device_name : option string;
  hb_created_at : Z
}.

Record Run := mkRun {
  run_id : positive;
  run_crawler_id : positive;
  run_status : string;
  run_started_at : Z;
  run_last_heartbeat : option Z;
  run_source_ip : option string
}.

Record DB := mkDB {
  db_crawlers : gmap positive Crawler;
  db_heartbeats : list HeartbeatRow;
  db_runs : list Run;
  db_rules : list AlertRule;
  db_states : list AlertState;
  db_events : list AlertEvent
}.

(** A request body runs in one session: state passing over [DB] with
    exceptions.  [run_request] is the [db.commit()] at the end of the
    handler: an exception before it leaves the committed database as it
    was (the session is rolled back when it is closed). *)
Definition M (A : Type) : Type := DB -> outcome (A * DB).

Definition mret {A} (a : A) : M A := fun db => Ok (a, db).
Definition mbind {A B} (m : M A) (k : A -> M B) : M B :=
  fun db => match m db with
            | Ok (a, db') => k a db'
            | Raise e => Raise e
            end.
Definition lift {A} (o : outcome A) : M A :=
  fun db => match o with Ok a => Ok (a, db) | Raise e => Raise e end.
Definition gets {A} (f : DB -> A) : M A := fun db => Ok (f db, db).
Definition modify (f : DB -> DB) : M unit := fun db => Ok (tt, f db).

Notation "'let*' x := m 'in' k" := (mbind m (fun x => k))
  (at level 200, x name, m at level 200, k at level 200).

Definition run_request {A} (m : M A) (db : DB) : DB * outcome A :=
  match m db with
  | Ok (a, db') => (db', Ok a)
  | Raise e => (db, Raise e)
  end.

Definition db_map_crawlers (f : gmap positive Crawler -> gmap positive Crawler) (db : DB) :=
  mkDB (f (db_crawlers db)) (db_heartbeats db) (db_runs db) (db_rules db) (db_states db) (db_events db).
Definition db_map_heartbeats (f : list HeartbeatRow -> list HeartbeatRow) (db : DB) :=
  mkDB (db_crawlers db) (f (db_heartbeats db)) (db_runs db) (db_rules db) (db_states db) (db_events db).
Definition db_map_runs (f : list Run -> list Run) (db : DB) :=
  mkDB (db_crawlers db) (db_heartbeats db) (f (db_runs db)) (db_rules db) (db_states db) (db_events db).
Definition db_map_rules (f : list AlertRule -> list AlertRule) (db : DB) :=
  mkDB (db_crawlers db) (db_heartbeats db) (db_runs db) (f (db_rules db)) (db_states db) (db_events db).
Definition db_map_states (f : list AlertState -> list AlertState) (db : DB) :=
  mkDB (db_crawlers db) (db_heartbeats db) (db_runs db) (db_rules db) (f (db_states db)) (db_events db).
Definition db_map_events (f : list AlertEvent -> list AlertEvent) (db : DB) :=
  mkDB (db_crawlers db) (db_heartbeats db) (db_runs db) (db_rules db) (db_states db) (f (db_events db)).

(* ------------------------------------------------------------------ *)
(** ** Alert engine: [_evaluate_alert_rules] *)

Definition same_state_key (rule_id crawler_id : positive) (s : AlertState) : bool :=
  Pos.eqb (as_rule_id s) rule_id && Pos.eqb (as_crawler_id s) crawler_id.

(** The session's copy of a state row is written back. *)
Definition save_state (s : AlertState) : M unit :=
  modify (db_map_states (map (fun s0 =>
    if same_state_key (as_rule_id s) (as_crawler_id s) s0 then s else s0))).

Definition _get_or_create_alert_state (rule : AlertRule) (c : Crawler) : M AlertState :=
  let* found := gets (fun db => List.find (same_state_key (ar_id rule) (cr_id c)) (db_states db)) in
  match found with
  | Some s => mret s
  | None =>
      let s := mkAlertState (ar_id rule) (cr_id c) (ar_user_id rule) 0 None None None (Some []) in
      let* _ := modify (db_map_states (fun l => l ++ [s])) in
      mret s
  end.

Section AlertEngine.
(** [_compare_threshold(value, threshold, comparator)]: the float
    comparison is not modelled, the results hold for every comparison. *)
Variable _compare_threshold : json -> option QArith_base.Q -> option string -> bool.
(** [_dispatch_alert_event]: the email / webhook I/O is not modelled; it
    sets the event's overall status (["sent"], ["failed"] or ["skipped"])
    from the channel results, or raises. *)
Variable _dispatch_alert_event : AlertRule -> AlertEvent -> Crawler -> outcome string.

Definition _evaluate_payload_rule (rule : AlertRule) (st : AlertState) (payload : dict)
  : outcome (bool * AlertState) :=
  let value := _get_nested_payload_value (Some payload) (ar_payload_field rule) in
  let? lv := last_value_of value in
  let st1 := as_set_last_value st lv in
  let st2 := as_set_context st1 (dict_set "last_value" value (dict_or_empty (as_context st1))) in
  if negb (_compare_threshold value (ar_threshold rule) (ar_comparator rule)) then
    Ok (false, as_set_hits st2 0)
  else
    let hits := as_consecutive_hits st2 + 1 in
    let st3 := as_set_hits st2 hits in
    if hits <? required_hits rule then Ok (false, st3) else Ok (true, st3).

(** One iteration of the [for rule in rules] loop. *)
Definition evaluate_one_rule (c : Crawler) (previous_status : option string)
    (payload : dict) (now_ : Z) (rule : AlertRule) : M unit :=
  if negb (_match_alert_rule_target rule c) then mret tt else
  let* st := _get_or_create_alert_state rule c in
  let* res :=
    (if String.eqb (ar_trigger_type rule) "status_offline" then
       mret (_evaluate_status_rule rule st previous_status (cr_status c))
     else if String.eqb (ar_trigger_type rule) "payload_threshold" then
       lift (_evaluate_payload_rule rule st payload)
     else mret (false, st)) in
  let '(triggered, st') := res in
  if negb triggered || _in_cooldown now_ rule st' then save_state st' else
  let event := mkAlertEvent (ar_id rule) (cr_id c) (ar_user_id rule) now_ "pending" in
  let event' :=
    match _dispatch_alert_event rule event c with
    | Ok status => ev_set_status event status
    | Raise _ => ev_set_status event "failed"
    end in
  let* _ := modify (db_map_events (fun l => l ++ [event'])) in
  let* _ := save_state (as_set_hits (as_set_last_triggered_at st' (ev_triggered_at event)) 0) in
  modify (db_map_rules (map (fun r =>
    if Pos.eqb (ar_id r) (ar_id rule) then ar_set_last_triggered_at r (ev_triggered_at event)
    else r))).

Fixpoint for_each (rules : list AlertRule) (body : AlertRule -> M unit) : M unit :=
  match rules with
  | [] => mret tt
  | r :: rest => let* _ := body r in for_each rest body
  end.

Definition _evaluate_alert_rules (c : Crawler) (previous_status : option string) (now_ : Z)
  : M unit :=
  let* rules := gets (fun db => filter (fun r =>
    Pos.eqb (ar_user_id r) (cr_user_id c) && ar_is_active r = true) (db_rules db)) in
  let payload := dict_or_empty (cr_heartbeat_payload c) in
  for_each rules (evaluate_one_rule c previous_status payload now_).
End AlertEngine.

(* ------------------------------------------------------------------ *)
(** ** Heartbeat: [_update_crawler_status], [_record_heartbeat], [heartbeat] *)

Definition cr_set_last_heartbeat (c : Crawler) (v : Z) :=
  mkCrawler (cr_id c) (cr_user_id c) (cr_api_key_id c) (cr_group_id c) (cr_status c)
    (cr_status_changed_at c) (Some v) (cr_last_source_ip c) (cr_last_device_name c)
    (cr_heartbeat_payload c).
Definition cr_set_last_source_ip (c : Crawler) (v : string) :=
  mkCrawler (cr_id c) (cr_user_id c) (cr_api_key_id c) (cr_group_id c) (cr_status c)
    (cr_status_changed_at c) (cr_last_heartbeat c) (Some v) (cr_last_device_name c)
    (cr_heartbeat_payload c).
Definition cr_set_status (c : Crawler) (v : string) (changed_at : Z) :=
  mkCrawler (cr_id c) (cr_user_id c) (cr_api_key_id c) (cr_group_id c) v
    (Some changed_at) (cr_last_heartbeat c) (cr_last_source_ip c) (cr_last_device_name c)
    (cr_heartbeat_payload c).
Definition cr_set_last_device_name (c : Crawler) (v : string) :=
  mkCrawler (cr_id c) (cr_user_id c) (cr_api_key_id c) (cr_group_id c) (cr_status c)
    (cr_status_changed_at c) (cr_last_heartbeat c) (cr_last_source_ip c) (Some v)
    (cr_heartbeat_payload c).
Definition cr_set_heartbeat_payload (c : Crawler) (v : dict) :=
  mkCrawler (cr_id c) (cr_user_id c) (cr_api_key_id c) (cr_group_id c) (cr_status c)
    (cr_status_changed_at c) (cr_last_heartbeat c) (cr_last_source_ip c)
    (cr_last_device_name c) (Some v).

(** Python truthiness of an [Optional[str]]. *)
Definition truthy_str (o : option string) : option string :=
  match o with
  | Some s => if String.eqb s "" then None else Some s
  | None => None
  end.

(** [_update_crawler_status(crawler, heartbeat_time, source_ip, payload_status)]
    at time [now_] (a [datetime] is always truthy). *)
Definition _update_crawler_status (c : Crawler) (heartbeat_time : Z)
    (source_ip payload_status : option string) (now_ : Z) : Crawler :=
  let c1 := cr_set_last_heartbeat c heartbeat_time in
  let c2 := match truthy_str source_ip with
            | Some ip => cr_set_last_source_ip c1 ip
            | None => c1
            end in
  let status := py_or_str payload_status (_compute_status now_ (cr_last_heartbeat c2)) in
  if negb (String.eqb status (cr_status c2)) then cr_set_status c2 status now_ else c2.

Record APIKey := mkAPIKey {
  ak_id : positive;
  ak_user_id : positive
}.

Record HeartbeatPayload := mkHeartbeatPayload {
  hp_status : option string;
  hp_payload : option dict;
  hp_device_name : option string
}.

Definition _record_heartbeat (c : Crawler) (api_key : APIKey) (status_value : string)
    (payload : dict) (client_ip device_name : option string) (now_ : Z) : M unit :=
  modify (db_map_heartbeats (fun l =>
    l ++ [mkHeartbeatRow (cr_id c) (ak_id api_key) status_value payload client_ip
            device_name now_])).

(** [CrawlerRun.status == "running"] ordered by [started_at desc], [.first()] *)
Definition latest_running_run (crawler_id : positive) (runs : list Run) : option Run :=
  head (sort_by (fun r => - run_started_at r)
          (filter (fun r => Pos.eqb (run_crawler_id r) crawler_id
                            && String.eqb (run_status r) "running" = true) runs)).

Definition mirror_run (current_time : Z) (client_ip : option string) (run : Run) : Run :=
  mkRun (run_id run) (run_crawler_id run) (run_status run) (run_started_at run)
    (Some current_time)
    (match truthy_str client_ip with Some ip => Some ip | None => run_source_ip run end).

Section Heartbeat.
Variable _compare_threshold : json -> option QArith_base.Q -> option string -> bool.
Variable _dispatch_alert_event : AlertRule -> AlertEvent -> Crawler -> outcome string.

(** The body of [heartbeat(crawler_id, payload, request, api_key)]: the
    response [(ts, status)]; [client_ip] is [_get_client_ip(request)] and
    every [now()] of the request is [current_time]. *)
Definition heartbeat_body (crawler_id : positive) (payload : option HeartbeatPayload)
    (api_key : APIKey) (client_ip : option string) (current_time : Z) : M (Z * string) :=
  let* crawlers := gets db_crawlers in
  let* crawler := lift (find_user_crawler crawlers (ak_user_id api_key) crawler_id) in
  let previous_status := cr_status crawler in
  let status_hint := match payload with Some p => hp_status p | None => None end in
  let c1 := _update_crawler_status crawler current_time client_ip status_hint current_time in
  let c2 := cr_set_heartbeat_payload c1
              (dict_or_empty (match payload with Some p => hp_payload p | None => None end)) in
  let device_name := match payload with Some p => hp_device_name p | None => None end in
  let c3 := match truthy_str device_name with
            | Some d => cr_set_last_device_name c2 d
            | None => c2
            end in
  let* _ := modify (db_map_crawlers (fun m => <[crawler_id := c3]> m)) in
  let* _ := _record_heartbeat c3 api_key (cr_status c3)
              (dict_or_empty (cr_heartbeat_payload c3)) client_ip device_name current_time in
  let* run := gets (fun db => latest_running_run crawler_id (db_runs db)) in
  let* _ := match run with
            | Some r => modify (db_map_runs (map (fun r0 =>
                          if Pos.eqb (run_id r0) (run_id r)
                          then mirror_run current_time client_ip r0 else r0)))
            | None => mret tt
            end in
  let* _ := _evaluate_alert_rules _compare_threshold _dispatch_alert_event
              c3 (Some previous_status) current_time in
  mret (current_time, cr_status c3).

(** The request: the body, then [db.commit()]. *)
Definition heartbeat (crawler_id : positive) (payload : option HeartbeatPayload)
    (api_key : APIKey) (client_ip : option string) (current_time : Z) (db : DB)
  : DB * outcome (Z * string) :=
  run_request (heartbeat_body crawler_id payload api_key client_ip current_time) db.
End Heartbeat.

(* ------------------------------------------------------------------ *)
(** ** Concrete scenarios *)

Module Scenario.
Definition t0 : Z := 1700000000 * US_PER_SECOND.
Definition minute : Z := 60 * US_PER_SECOND.

(** A crawler as [_get_or_bind_crawler] creates it at time [t_reg]:
    status ["offline"]. *)
Definition crawler_at (t_reg : Z) : Crawler :=
  mkCrawler 1 1 (Some 1%positive) None "offline" (Some t_reg) None None None None.
Definition crawler : Crawler := crawler_at t0.
Definition api_key : APIKey := mkAPIKey 1 1.

(** [{trigger_type: status_offline, consecutive_failures: 3, cooldown_minutes: 10}] *)
Definition offline_rule : AlertRule :=
  mkAlertRule 1 1 "status_offline" "all" (Some []) None (Some "gt") None
    (Some 3) (Some 10) true None.

Definition db_offline_rule_at (t_reg : Z) : DB :=
  mkDB {[1%positive := crawler_at t_reg]} [] [] [offline_rule] [] [].
Definition db_offline_rule : DB := db_offline_rule_at t0.

Definition offline_heartbeat : option HeartbeatPayload :=
  Some (mkHeartbeatPayload (Some "offline") None None).

Definition cmp0 : json -> option QArith_base.Q -> option string -> bool :=
  fun _ _ _ => false.
Definition send_ok : AlertRule -> AlertEvent -> Crawler -> outcome string :=
  fun _ _ _ => Ok "sent".

(** One offline heartbeat at time [t]; the committed database. *)
Definition hb cmp disp (t : Z) (db : DB) : DB :=
  fst (heartbeat cmp disp 1 offline_heartbeat api_key None t db).

(** Number of [AlertEvent] rows after each heartbeat of a sequence. *)
Fixpoint event_counts cmp disp (times : list Z) (db : DB) : list nat :=
  match times with
  | [] => []
  | t :: rest =>
      let db' := hb cmp disp t db in
      length (db_events db') :: event_counts cmp disp rest db'
  end.

(** A payload rule on field ["cpu"] and a heartbeat whose ["cpu"] is an
    integer too large for a float. *)
Definition cpu_rule : AlertRule :=
  mkAlertRule 2 1 "payload_threshold" "all" (Some []) (Some "cpu") (Some "gt")
    (Some (QArith_base.inject_Z 90)) (Some 1) (Some 10) true None.

Definition db_cpu_rule : DB :=
  mkDB {[1%positive := crawler]} [] [] [cpu_rule] [] [].

Definition huge_cpu_heartbeat : option HeartbeatPayload :=
  Some (mkHeartbeatPayload None (Some [("cpu", JInt (2 ^ 1024))]) None).
End Scenario.

(* ------------------------------------------------------------------ *)
(** * Further functions of app/routers/crawlers.py *)

(* ------------------------------------------------------------------ *)
(** ** Id list parameters: [_parse_id_list], [_parse_group_filters] *)

(** [s.split(sep)] for a one-character separator. *)
Fixpoint split_on_char (sep : Ascii.ascii) (s : string) : list string :=
  match s with
  | EmptyString => [EmptyString]
  | String ch rest =>
      if Ascii.eqb ch sep then EmptyString :: split_on_char sep rest
      else match split_on_char sep rest with
           | w :: ws => String ch w :: ws
           | [] => [String ch EmptyString]
           end
  end.

Definition COMMA : Ascii.ascii := Ascii.ascii_of_nat 44.
Definition UNDERSCORE : Ascii.ascii := Ascii.ascii_of_nat 95.
Definition PLUS : Ascii.ascii := Ascii.ascii_of_nat 43.
Definition MINUS : Ascii.ascii := Ascii.ascii_of_nat 45.

Definition digit_value (ch : Ascii.ascii) : option Z :=
  let n := Ascii.nat_of_ascii ch in
  if ((48 <=? n) && (n <=? 57))%nat then Some (Z.of_nat n - 48) else None.

(** The digits of a base-10 literal after its first digit: a [_] may
    separate two digits. *)
Fixpoint int_body (s : string) (acc : Z) (after_underscore : bool) : option Z :=
  match s with
  | EmptyString => if after_underscore then None else Some acc
  | String ch rest =>
      match digit_value ch with
      | Some d => int_body rest (acc * 10 + d) false
      | None =>
          if Ascii.eqb ch UNDERSCORE && negb after_underscore
          then int_body rest acc true else None
      end
  end.

Definition int_unsigned (s : string) : option Z :=
  match s with
  | String ch rest =>
      match digit_value ch with
      | Some d => int_body rest d false
      | None => None
      end
  | EmptyString => None
  end.

(** Python's [int(s)] for a [str] (base 10): surrounding whitespace,
    an optional sign, digits with single underscores between them;
    [None] is the [ValueError]. *)
Definition py_int (s : string) : option Z :=
  let t := py_strip s in
  match t with
  | String ch rest =>
      if Ascii.eqb ch PLUS then int_unsigned rest
      else if Ascii.eqb ch MINUS then option_map Z.opp (int_unsigned rest)
      else int_unsigned t
  | EmptyString => None
  end.

(** The [for chunk in raw.split(",")] loop of [_parse_id_list]. *)
Fixpoint parse_id_chunks (chunks : list string) (ids : list Z) : list Z :=
  match chunks with
  | [] => ids
  | chunk :: rest =>
      let chunk := py_strip chunk in
      if String.eqb chunk "" then parse_id_chunks rest ids
      else match py_int chunk with
           | Some v => parse_id_chunks rest (ids ++ [v])
           | None => parse_id_chunks rest ids
           end
  end.

Definition _parse_id_list (raw : option string) : list Z :=
  match raw with
  | None => []
  | Some r => if String.eqb r "" then [] else parse_id_chunks (split_on_char COMMA r) []
  end.

(** The loop of [_parse_group_filters]. *)
Fixpoint parse_group_chunks (chunks : list string) (ids : list Z) (include_none : bool)
  : list Z * bool :=
  match chunks with
  | [] => (ids, include_none)
  | chunk :: rest =>
      let chunk := py_strip chunk in
      if String.eqb chunk "" then parse_group_chunks rest ids include_none else
      let lowered := py_lower chunk in
      if String.eqb lowered "none" || String.eqb lowered "null" || String.eqb lowered "0"
      then parse_group_chunks rest ids true
      else match py_int chunk with
           | Some v => parse_group_chunks rest (ids ++ [v]) include_none
           | None => parse_group_chunks rest ids include_none
           end
  end.

Definition _parse_group_filters (raw : option string) : list Z * bool :=
  match raw with
  | None => ([], false)
  | Some r => if String.eqb r "" then ([], false)
              else parse_group_chunks (split_on_char COMMA r) [] false
  end.

(** Python's [str(n)] for an [int]. *)
Definition digit_char (d : Z) : Ascii.ascii := Ascii.ascii_of_nat (48 + Z.to_nat d).

Fixpoint nat_digits (fuel : nat) (n : Z) (acc : string) : string :=
  match fuel with
  | O => acc
  | S f =>
      let acc' := String (digit_char (n mod 10)) acc in
      if n <? 10 then acc' else nat_digits f (n / 10) acc'
  end.

Definition py_str_int (n : Z) : string :=
  if n <? 0 then String MINUS (nat_digits (S (Z.to_nat (- n))) (- n) EmptyString)
  else nat_digits (S (Z.to_nat n)) n EmptyString.

(** [",".join(parts)] *)
Fixpoint join_comma (parts : list string) : string :=
  match parts with
  | [] => EmptyString
  | [p] => p
  | p :: rest => String.append p (String COMMA (join_comma rest))
  end.

(* proofs *)
Fixpoint string_forall (p : Ascii.ascii -> bool) (s : string) : bool :=
  match s with
  | EmptyString => true
  | String ch rest => p ch && string_forall p rest
  end.

Definition is_digit_char (ch : Ascii.ascii) : bool :=
  match digit_value ch with Some _ => true | None => false end.

(* ------------------------------------------------------------------ *)
(** ** Log levels: [_normalize_level_code], [_resolve_log_level] *)

(** [LOG_LEVEL_CODE_TO_NAME] of app/constants.py *)
Definition LOG_LEVEL_CODE_TO_NAME : list (Z * string) :=
  [(0, "TRACE"); (10, "DEBUG"); (20, "INFO"); (30, "WARNING"); (40, "ERROR"); (50, "CRITICAL")].

(** [{name: code for code, name in LOG_LEVEL_CODE_TO_NAME.items()}] *)
Definition LOG_LEVEL_NAME_TO_CODE : list (string * Z) :=
  map (fun '(code, name) => (name, code)) LOG_LEVEL_CODE_TO_NAME.

(** [sorted(LOG_LEVEL_CODE_TO_NAME.keys())] *)
Definition LEVEL_CODES : list Z := sort_by (fun c => c) (map fst LOG_LEVEL_CODE_TO_NAME).

Definition LEVEL_ALIASES : list (string * string) :=
  [("WARN", "WARNING"); ("ERR", "ERROR"); ("FATAL", "CRITICAL")].

(** [d.get(k)] on a dict given by its items. *)
Fixpoint assoc_lookup {K V} (eqb : K -> K -> bool) (k : K) (l : list (K * V)) : option V :=
  match l with
  | [] => None
  | (k', v) :: rest => if eqb k k' then Some v else assoc_lookup eqb k rest
  end.

(** [min(xs, key=key)]: the first element of least key ([None]: the
    [ValueError] of an empty sequence). *)
Definition py_min_by (key : Z -> Z) (xs : list Z) : option Z :=
  match xs with
  | [] => None
  | x :: rest => Some (fold_left (fun best y => if key y <? key best then y else best) rest x)
  end.

(** [LEVEL_CODES] is not empty, the fallback is never used. *)
Definition _normalize_level_code (code : Z) : Z :=
  default code (py_min_by (fun x => Z.abs (x - code)) LEVEL_CODES).

(** [str.upper()] on ASCII letters. *)
Fixpoint py_upper (s : string) : string :=
  match s with
  | EmptyString => EmptyString
  | String ch rest =>
      let n := Ascii.nat_of_ascii ch in
      String (if ((97 <=? n) && (n <=? 122))%nat then Ascii.ascii_of_nat (n - 32) else ch)
        (py_upper rest)
  end.

(** [_resolve_log_level(payload)] for [payload.level] and [payload.level_code]. *)
Definition _resolve_log_level (level : string) (level_code : option Z) : string * Z :=
  match level_code with
  | Some c =>
      let normalized := _normalize_level_code c in
      (default "INFO" (assoc_lookup Z.eqb normalized LOG_LEVEL_CODE_TO_NAME), normalized)
  | None =>
      let level_name := py_upper (py_or_str (Some level) "INFO") in
      let canonical := default level_name (assoc_lookup String.eqb level_name LEVEL_ALIASES) in
      match assoc_lookup String.eqb canonical LOG_LEVEL_NAME_TO_CODE with
      | Some code => (canonical, code)
      | None => ("INFO", default 20 (assoc_lookup String.eqb "INFO" LOG_LEVEL_NAME_TO_CODE))
      end
  end.

(** ** User log quota: [_effective_user_quota], [_enforce_user_quota] *)

(** [user.log_quota_bytes] on a user loaded from the database:
    [models.User] declares no such column, so the read raises
    [AttributeError]. *)
Definition user_log_quota_bytes (u : User) : outcome (option Z) := Raise AttributeError.

(** [_effective_user_quota(user)]; [default_quota] is
    [settings.DEFAULT_USER_LOG_QUOTA_BYTES]. *)
Definition _effective_user_quota (default_quota : Z) (u : User) : outcome (option Z) :=
  let? stored := user_log_quota_bytes u in
  Ok (match stored with
      | None => Some (py_int_or default_quota (300 * 1024 * 1024))
      | Some v => if v <=? 0 then None else Some v
      end).

(** The inner join [LogEntry JOIN Crawler] filtered on [Crawler.user_id]. *)
Definition user_log_rows (crawlers : gmap positive Crawler) (logs : list LogEntry)
    (uid : positive) : list LogEntry :=
  filter (fun e => cr_user_id <$> crawlers !! log_crawler_id e = Some uid) logs.

(** [_measure_user_usage(db, user_id)] *)
Definition _measure_user_usage (crawlers : gmap positive Crawler)
    (logs : list LogEntry) (uid : positive) : Z * Z :=
  let rows := user_log_rows crawlers logs uid in
  (Z.of_nat (length rows),
   fold_right (fun e acc => Z.of_nat (String.length (log_message e)) + acc) 0 rows).

(** [_delete_oldest_user_logs(db, user_id, n)] *)
Definition _delete_oldest_user_logs (crawlers : gmap positive Crawler)
    (logs : list LogEntry) (uid : positive) (n : Z) : list LogEntry * Z :=
  let n := Z.max 0 n in
  if n <=? 0 then (logs, 0) else
  let ids := map log_id
    (limit (Z.to_nat n)
       (sort_by (fun e => Zpos (log_id e)) (user_log_rows crawlers logs uid))) in
  match ids with
  | [] => (logs, 0)
  | _ =>
      let kept := filter (fun e => log_id e ∉ ids) logs in
      (kept, Z.of_nat (length logs - length kept))
  end.

Section UserQuotaLoop.
Context {DB : Type}.
Variable measure : DB -> positive -> Z * Z.
Variable delete_oldest : DB -> positive -> Z -> DB * Z.
Variable trim : Z.
Variable uid : positive.
Variable quota : Z.

(** The [while bytes_ > quota] loop of [_enforce_user_quota]. *)
Fixpoint user_quota_loop (fuel : nat) (db : DB) (lines bytes_ deleted_total : Z)
    (loop_guard : nat) : option (EnforceResult DB) :=
  match fuel with
  | O => None
  | S fuel' =>
      if quota <? bytes_ then
        let '(db', deleted) := delete_oldest db uid trim in
        if deleted <=? 0 then
          Some (mkEnforceResult db deleted_total lines bytes_ loop_guard)
        else
          let deleted_total' := deleted_total + deleted in
          let '(lines', bytes') := measure db' uid in
          let loop_guard' := S loop_guard in
          if (50 <=? loop_guard')%nat then
            Some (mkEnforceResult db' deleted_total' lines' bytes' loop_guard')
          else user_quota_loop fuel' db' lines' bytes' deleted_total' loop_guard'
      else Some (mkEnforceResult db deleted_total lines bytes_ loop_guard)
  end.
End UserQuotaLoop.

(** [_enforce_user_quota(db, user)]: the loop result and ["quota"]; its
    only exception is the one of its first statement. *)
Definition _enforce_user_quota (s : Settings) (default_quota : Z) (fuel : nat)
    (crawlers : gmap positive Crawler) (logs : list LogEntry) (u : User)
  : outcome (option (EnforceResult (list LogEntry) * option Z)) :=
  let? quota := _effective_user_quota default_quota u in
  let '(lines, bytes_) := _measure_user_usage crawlers logs (user_id u) in
  Ok (match quota with
      | None => Some (mkEnforceResult logs 0 lines bytes_ 0, None)
      | Some q =>
          match user_quota_loop (_measure_user_usage crawlers) (_delete_oldest_user_logs crawlers)
                  (TRIM_CHUNK s) (user_id u) q fuel logs lines bytes_ 0 0 with
          | Some r => Some (r, Some q)
          | None => None
          end
      end).

(** ** Log writes: [create_log] *)

(** The log table after [create_log(crawler_id, payload, request, api_key)]:
    [u] is [api_key.user], [message] is [payload.message] and [new_id] the
    id the database gives the new row (the other columns of the row are not
    modelled).  Both enforcements run inside [try: ... except Exception:
    pass]; [None] is the model running out of [fuel]. *)
Definition create_log (s : Settings) (default_quota : Z) (fuel : nat)
    (crawlers : gmap positive Crawler) (logs : list LogEntry) (api_key : APIKey) (u : User)
    (crawler_id : positive) (message : string) (new_id : positive)
  : outcome (LogEntry * list LogEntry) :=
  let? crawler := find_user_crawler crawlers (ak_user_id api_key) crawler_id in
  let log := mkLogEntry new_id (cr_id crawler) message in
  let logs1 := logs ++ [log] in
  let logs2 :=
    match _enforce_crawler_limits s fuel logs1 crawler with
    | Ok (Some r) => er_db r
    | Ok None | Raise _ => logs1
    end in
  let logs3 :=
    match _enforce_user_quota s default_quota fuel crawlers logs2 u with
    | Ok (Some (r, _)) => er_db r
    | Ok None | Raise _ => logs2
    end in
  Ok (log, logs3).

(** The separator of [field_path.split('.')]. *)
Definition DOT : Ascii.ascii := Ascii.ascii_of_nat 46.

(** ** Alert delivery: [_dispatch_alert_event] *)

(** Python truthiness of a JSON value. *)
Definition py_truthy (j : json) : bool :=
  match j with
  | JNull => false
  | JBool b => b
  | JInt z => negb (z =? 0)
  | JFloat q => negb (QArith_base.Qeq_bool q (QArith_base.inject_Z 0))
  | JStr s => negb (String.eqb s "")
  | JArr l => match l with [] => false | _ => true end
  | JObj kvs => match kvs with [] => false | _ => true end
  end.

(** [dict.get(k, default)] *)
Definition dict_get (k : string) (d : dict) (default_ : json) : json :=
  match assoc_get k d with Some v => v | None => default_ end.

(** One entry of [event.channel_results]. *)
Record ChannelResult := mkChannelResult {
  chr_type : json;
  chr_target : option json;
  chr_status : string;
  chr_detail : option string
}.

(** [s.join(parts)] *)
Fixpoint join_str (sep : string) (parts : list string) : string :=
  match parts with
  | [] => EmptyString
  | [p] => p
  | p :: rest => String.append p (String.append sep (join_str sep rest))
  end.

(** What [_dispatch_alert_event] writes on the event: [channel_results],
    [status] and [error] ([None]: left as it was). *)
Record DispatchResult := mkDispatchResult {
  dr_channel_results : list ChannelResult;
  dr_status : string;
  dr_error : option string
}.

Section Dispatch.
(** [_send_email_alert(rule, crawler, event, target, extra_payload)] and
    [_send_webhook_alert(...)]: the SMTP and HTTP I/O is not modelled, only
    the returned result.  Their [try] covers the I/O only: the message
    headers ([message["To"] = target] refuses a CR or LF) and the webhook
    body are built before it, so either may raise. *)
Variable _send_email_alert : json -> outcome ChannelResult.
Variable _send_webhook_alert : json -> outcome ChannelResult.

(** One iteration of the [for channel in channels] loop. *)
Definition dispatch_channel (channel : dict) : outcome ChannelResult :=
  let channel_type := dict_get "type" channel JNull in
  let target := dict_get "target" channel JNull in
  let enabled := dict_get "enabled" channel (JBool true) in
  if negb (py_truthy enabled) then
    Ok (mkChannelResult channel_type (Some target) "skipped" (Some "disabled"))
  else if negb (py_truthy target) then
    Ok (mkChannelResult channel_type None "failed" (Some "missing target"))
  else match channel_type with
  | JStr "email" => _send_email_alert target
  | JStr "webhook" => _send_webhook_alert target
  | _ => Ok (mkChannelResult channel_type (Some target) "skipped" (Some "unsupported"))
  end.

(** The loop: an exception of a send leaves it, and the function. *)
Fixpoint dispatch_channels (channels : list dict) : outcome (list ChannelResult) :=
  match channels with
  | [] => Ok []
  | ch :: rest =>
      let? r := dispatch_channel ch in
      let? rs := dispatch_channels rest in
      Ok (r :: rs)
  end.

(** Failed results with a truthy detail. *)
Definition failed_details (results : list ChannelResult) : list string :=
  omap (fun r => if String.eqb (chr_status r) "failed"
                 then match chr_detail r with
                      | Some d => if String.eqb d "" then None else Some d
                      | None => None
                      end
                 else None) results.

(** [_dispatch_alert_event(rule, event, crawler, extra_payload)] with
    [channels] the value of [rule.channels] ([None]: SQL [NULL]); on an
    exception nothing is written on the event. *)
Definition _dispatch_alert_event (channels : option (list dict)) : outcome DispatchResult :=
  let channels := match channels with Some l => l | None => [] end in
  let results0 :=
    match channels with
    | [] => [mkChannelResult (JStr "none") None "skipped" (Some "no channels")]
    | _ => []
    end in
  let? results1 := dispatch_channels channels in
  let results := results0 ++ results1 in
  Ok (if existsb (fun r => String.eqb (chr_status r) "failed") results then
        let details := failed_details results in
        mkDispatchResult results "failed"
          (match details with [] => None | _ => Some (join_str "; " details) end)
      else if existsb (fun r => String.eqb (chr_status r) "sent") results then
        mkDispatchResult results "sent" None
      else mkDispatchResult results "skipped" None).
End Dispatch.

(** ** API key authentication: [_require_api_key] *)

(** The [APIKey] columns read and written by [_require_api_key]. *)
Record APIKeyRow := mkAPIKeyRow {
  akr_id : positive;
  akr_user_id : positive;
  akr_key : string;
  akr_active : bool;
  akr_allowed_ips : option string;
  akr_last_used_at : option Z;
  akr_last_used_ip : option string
}.

Definition akr_touch (k : APIKeyRow) (now_ : Z) (ip : option string) : APIKeyRow :=
  mkAPIKeyRow (akr_id k) (akr_user_id k) (akr_key k) (akr_active k) (akr_allowed_ips k)
    (Some now_) ip.

(** [{ip.strip() for ip in allowed_ips.split(",") if ip.strip()}] as a list. *)
Definition allowed_ip_set (allowed_ips : string) : list string :=
  filter (fun ip => ip <> EmptyString) (map py_strip (split_on_char COMMA allowed_ips)).

(** [_require_api_key(request, x_api_key, db)] with [client_ip] the value of
    [_get_client_ip(request)]: the key row and the updated table. *)
Definition _require_api_key (keys : list APIKeyRow) (x_api_key client_ip : option string)
    (now_ : Z) : outcome (APIKeyRow * list APIKeyRow) :=
  match truthy_str x_api_key with
  | None => Raise (HTTPException 401)
  | Some x =>
      match List.find (fun k => String.eqb (akr_key k) x && akr_active k) keys with
      | None => Raise (HTTPException 401)
      | Some key =>
          let forbidden :=
            match truthy_str (akr_allowed_ips key) with
            | Some s =>
                let allowed := allowed_ip_set s in
                match allowed with
                | [] => false
                | _ => match client_ip with
                       | Some ip => negb (bool_decide (ip ∈ allowed))
                       | None => true
                       end
                end
            | None => false
            end in
          if forbidden then Raise (HTTPException 403) else
          let key' := akr_touch key now_ client_ip in
          Ok (key', map (fun k => if Pos.eqb (akr_id k) (akr_id key) then key' else k) keys)
      end
  end.


(** ** Heartbeat history: [my_crawler_heartbeats] *)

(** A [CrawlerHeartbeat] row with its primary key. *)
Definition HeartbeatRecord := (positive * HeartbeatRow)%type.

(** [records[i] for i in range(0, len(records), step)]; [fuel] is the
    number of elements left to take. *)
Fixpoint stride_aux {A} (fuel step : nat) (l : list A) : list A :=
  match fuel with
  | O => []
  | S fuel' =>
      match l with
      | [] => []
      | x :: _ => x :: stride_aux fuel' step (drop step l)
      end
  end.

Definition stride {A} (step : nat) (l : list A) : list A := stride_aux (length l) step l.

(** The sampling at the end of [my_crawler_heartbeats]:
    [step = max(1, math.ceil(total / max_points))] ([total] is at most the
    query limit 5000, so the float quotient rounds up as the exact one). *)
Definition downsample (max_points : nat) (records : list HeartbeatRecord)
  : list HeartbeatRecord :=
  let total := length records in
  if (max_points <? total)%nat then
    let step := Nat.max 1 ((total + max_points - 1) / max_points) in
    let sampled := stride step records in
    match last sampled, last records with
    | Some s, Some r => if Pos.eqb (fst s) (fst r) then sampled else sampled ++ [r]
    | _, _ => sampled
    end
  else records.

(** The swap of [start > end]. *)
Definition heartbeat_window (start end_ : option Z) : option Z * option Z :=
  match start, end_ with
  | Some s, Some e => if e <? s then (Some e, Some s) else (Some s, Some e)
  | _, _ => (start, end_)
  end.

Definition in_window (w : option Z * option Z) (t : Z) : bool :=
  match fst w with Some s => s <=? t | None => true end &&
  match snd w with Some e => t <=? e | None => true end.

(** The query: rows of the crawler in the window, the [limit] latest by
    [created_at], returned oldest first ([list(reversed(query.all()))]). *)
Definition heartbeat_query (rows : list HeartbeatRecord) (crawler_id : positive)
    (limit_ : nat) (start end_ : option Z) : list HeartbeatRecord :=
  let w := heartbeat_window start end_ in
  rev (limit limit_
         (sort_by (fun r => - hb_created_at (snd r))
            (filter (fun r => Pos.eqb (hb_crawler_id (snd r)) crawler_id
                              && in_window w (hb_created_at (snd r)) = true) rows))).

(** [my_crawler_heartbeats(crawler_id, limit, start, end, max_points)] *)
Definition my_crawler_heartbeats (u : User) (crawlers : gmap positive Crawler)
    (rows : list HeartbeatRecord) (crawler_id : positive) (limit_ : nat)
    (start end_ : option Z) (max_points : nat) : outcome (list HeartbeatRecord) :=
  let? _ := _ensure_crawler_feature u in
  let? _ := find_user_crawler crawlers (user_id u) crawler_id in
  Ok (downsample max_points (heartbeat_query rows crawler_id limit_ start end_)).

(** ** Statistics buckets: [_make_edges] *)

Definition DAY_US : Z := 24 * 60 * 60 * US_PER_SECOND.

(** [edges[-1]] of a list that is never empty. *)
Definition last_edge (edges : list Z) : Z :=
  match last edges with Some e => e | None => 0 end.

(** [while len(edges) < b: edges.append(edges[-1] + step); if edges[-1] >= end_dt: break];
    each iteration adds one edge, so [b] iterations are enough. *)
Fixpoint edges_loop (fuel : nat) (b : nat) (step end_ : Z) (edges : list Z) : list Z :=
  match fuel with
  | O => edges
  | S fuel' =>
      if (length edges <? b)%nat then
        let edges' := edges ++ [last_edge edges + step] in
        if end_ <=? last_edge edges' then edges'
        else edges_loop fuel' b step end_ edges'
      else edges
  end.

(** [while len(edges) < b + 1: edges.append(edges[-1])] *)
Fixpoint pad_edges (fuel : nat) (n : nat) (edges : list Z) : list Z :=
  match fuel with
  | O => edges
  | S fuel' =>
      if (length edges <? n)%nat then pad_edges fuel' n (edges ++ [last_edge edges])
      else edges
  end.

Section MakeEdges.
(** [timedelta(seconds=max(1.0, (end_dt - start_dt).total_seconds()) / b)]
    in microseconds: the float division and the rounding of [timedelta] are
    not modelled. *)
Variable auto_step : Z -> nat -> Z.

(** [_make_edges(start_dt, end_dt, buckets, granularity)] *)
Definition _make_edges (start_dt end_dt : Z) (buckets : Z) (granularity : option string)
  : list Z :=
  let b := Z.to_nat (Z.max 2 (py_int_or buckets 24)) in
  let gran := py_lower (py_or_str granularity "auto") in
  let step :=
    if String.eqb gran "day" then DAY_US
    else if String.eqb gran "week" then 7 * DAY_US
    else auto_step (end_dt - start_dt) b in
  let edges1 := edges_loop b b step end_dt [start_dt] in
  let edges2 := if last_edge edges1 <? end_dt then edges1 ++ [end_dt] else edges1 in
  let edges3 := pad_edges (b + 1) (b + 1) edges2 in
  if (b + 1 <? length edges3)%nat then take (b + 1) edges3 else edges3.
End MakeEdges.

(** ** Statistics cache: [_stats_cache_get], [_stats_cache_set] *)

(** [STATS_CACHE_TTL = max(0, int(settings.STATS_CACHE_TTL_SECONDS or 60))] *)
Definition STATS_CACHE_TTL (ttl_setting : Z) : Z := Z.max 0 (py_int_or ttl_setting 60).

Section StatsCache.
Context {K : Type} `{Countable K} {D : Type}.

(** [_stats_cache_get(cache, key)] at [time.time()] = [now_] (microseconds). *)
Definition _stats_cache_get (ttl_setting : Z) (cache : gmap K (Z * D)) (key : K) (now_ : Z)
  : option D :=
  if STATS_CACHE_TTL ttl_setting <=? 0 then None else
  match cache !! key with
  | None => None
  | Some (ts, data) =>
      if STATS_CACHE_TTL ttl_setting * US_PER_SECOND <? now_ - ts then None else Some data
  end.

(** [_stats_cache_set(cache, key, data)] at [time.time()] = [now_]. *)
Definition _stats_cache_set (ttl_setting : Z) (cache : gmap K (Z * D)) (key : K) (data : D)
    (now_ : Z) : gmap K (Z * D) :=
  if STATS_CACHE_TTL ttl_setting <=? 0 then cache else <[key := (now_, data)]> cache.
End StatsCache.

(** ** Command creation: [create_crawler_command] *)

(** [create_crawler_command(crawler_id, payload)] by user [u] at time
    [now_]; [new_id] is the id the database assigns to the new row. *)
Definition create_crawler_command (u : User) (crawlers : gmap positive Crawler)
    (commands : gmap positive Command) (crawler_id : positive) (command : string)
    (payload : option dict) (expires_in_seconds : option Z) (new_id : positive) (now_ : Z)
  : outcome (Command * gmap positive Command) :=
  let? _ := _ensure_crawler_feature u in
  let? _ := find_user_crawler crawlers (user_id u) crawler_id in
  let expires_at :=
    match expires_in_seconds with
    | Some s => if s =? 0 then None else Some (now_ + s * US_PER_SECOND)
    | None => None
    end in
  let c := mkCommand new_id crawler_id command (Some (dict_or_empty payload)) "pending"
             None now_ expires_at None in
  Ok (c, <[new_id := c]> commands).

(* ================================================================== *)
(** * Properties *)

(* ------------------------------------------------------------------ *)
(** ** Status deriver *)

(** C3: [_compute_status] is total, yields offline without a heartbeat,
    online up to 5 minutes, warning up to 15 minutes and offline beyond,
    and for a fixed [now] it only degrades as the elapsed time grows. *)
Theorem compute_status_windows_monotone (now_ : Z) :
  _compute_status now_ None = "offline" /\
  (forall lh, _compute_status now_ (Some lh) = "online" \/
              _compute_status now_ (Some lh) = "warning" \/
              _compute_status now_ (Some lh) = "offline") /\
  (forall lh, now_ - lh <= 300 * US_PER_SECOND ->
              _compute_status now_ (Some lh) = "online") /\
  (forall lh, 300 * US_PER_SECOND < now_ - lh <= 900 * US_PER_SECOND ->
              _compute_status now_ (Some lh) = "warning") /\
  (forall lh, 900 * US_PER_SECOND < now_ - lh ->
              _compute_status now_ (Some lh) = "offline") /\
  (forall lh1 lh2, now_ - lh1 <= now_ - lh2 ->
     status_rank (_compute_status now_ (Some lh1))
       <= status_rank (_compute_status now_ (Some lh2))).
Proof.
  unfold _compute_status, HEARTBEAT_ONLINE_SECONDS, HEARTBEAT_WARN_SECONDS.
  repeat split.
  - intros lh.
    destruct (_ <=? _); [left; reflexivity|].
    destruct (_ <=? _); [right; left; reflexivity | right; right; reflexivity].
  - intros lh H. replace (now_ - lh <=? 5 * 60 * US_PER_SECOND) with true; [done|].
    symmetry. apply Z.leb_le. lia.
  - intros lh [H1 H2].
    replace (now_ - lh <=? 5 * 60 * US_PER_SECOND) with false
      by (symmetry; apply Z.leb_gt; lia).
    replace (now_ - lh <=? 15 * 60 * US_PER_SECOND) with true
      by (symmetry; apply Z.leb_le; lia). done.
  - intros lh H.
    replace (now_ - lh <=? 5 * 60 * US_PER_SECOND) with false
      by (symmetry; apply Z.leb_gt; unfold US_PER_SECOND in *; lia).
    replace (now_ - lh <=? 15 * 60 * US_PER_SECOND) with false
      by (symmetry; apply Z.leb_gt; lia). done.
  - intros lh1 lh2 H.
    destruct (Z.leb_spec (now_ - lh1) (5 * 60 * US_PER_SECOND));
    destruct (Z.leb_spec (now_ - lh2) (5 * 60 * US_PER_SECOND));
    destruct (Z.leb_spec (now_ - lh1) (15 * 60 * US_PER_SECOND));
    destruct (Z.leb_spec (now_ - lh2) (15 * 60 * US_PER_SECOND));
    unfold status_rank; simpl; lia.
Qed.

(** Witness of C3 at [now = 10 min], heartbeats 1 and 6 minutes old. *)
Lemma compute_status_windows_monotone_witness :
  (10 * 60 * US_PER_SECOND) - (9 * 60 * US_PER_SECOND)
    <= (10 * 60 * US_PER_SECOND) - (4 * 60 * US_PER_SECOND) /\
  status_rank (_compute_status (10 * 60 * US_PER_SECOND) (Some (9 * 60 * US_PER_SECOND)))
    <= status_rank (_compute_status (10 * 60 * US_PER_SECOND) (Some (4 * 60 * US_PER_SECOND))).
Proof.
  split; [unfold US_PER_SECOND; lia|].
  apply (compute_status_windows_monotone (10 * 60 * US_PER_SECOND)).
  unfold US_PER_SECOND; lia.
Defined.

(* ------------------------------------------------------------------ *)
(** ** Per-crawler log limits *)

(** C5 (code bug): [_effective_crawler_limits] never returns a limit: the
    crawler columns it reads do not exist, so it raises [AttributeError] for
    every crawler.  Its body, run on stored values, also reads the other way
    round from its docstring and the spec: an unset limit is the system
    default, and a stored limit [<= 0] (such as [0]) is unlimited. *)
Theorem effective_limits_never_read (s : Settings) (c : Crawler) :
  _effective_crawler_limits s c = Raise AttributeError /\
  effective_crawler_limits_with (fun _ => Ok None) (fun _ => Ok None) s c
    = Ok (Some (py_int_or (DEFAULT_CRAWLER_LOG_MAX_LINES s) 1000000),
          Some (py_int_or (DEFAULT_CRAWLER_LOG_MAX_BYTES s) (100 * 1024 * 1024))) /\
  (forall v w, v <= 0 -> w <= 0 ->
     effective_crawler_limits_with (fun _ => Ok (Some v)) (fun _ => Ok (Some w)) s c
       = Ok (None, None)).
Proof.
  split; [reflexivity|]. split; [reflexivity|].
  intros v w Hv Hw. unfold effective_crawler_limits_with. cbn [obind].
  destruct (Z.leb_spec v 0); [|lia]. destruct (Z.leb_spec w 0); [|lia].
  reflexivity.
Qed.

(* ------------------------------------------------------------------ *)
(** ** Quota enforcement loop *)

Lemma TRIM_CHUNK_pos (s : Settings) : 0 < TRIM_CHUNK s.
Proof. unfold TRIM_CHUNK. lia. Qed.

(** When the loop body decides to delete nothing, the measured usage is
    within every finite limit. *)
Lemma need_delete_nonpos_within (trim : Z) (max_lines max_bytes : option Z) (lines bytes_ : Z) :
  0 < trim ->
  need_delete_of trim max_lines max_bytes lines bytes_ <= 0 ->
  (forall ml, max_lines = Some ml -> lines <= ml) /\
  (forall mb, max_bytes = Some mb -> bytes_ <= mb).
Proof.
  intros Htrim. unfold need_delete_of.
  destruct max_lines as [ml|], max_bytes as [mb|];
    repeat match goal with |- context [?a <? ?b] => destruct (Z.ltb_spec a b) end;
    intros Hn; split; intros x Hx; try discriminate Hx; injection Hx as <-; lia.
Qed.

Section EnforceLoopProofs.
Context {DB : Type}.
Variable measure : DB -> positive -> Z * Z.
Variable delete_oldest : DB -> positive -> Z -> DB * Z.
Variable trim : Z.
Hypothesis trim_pos : 0 < trim.
Variable crawler_id : positive.
Variables max_lines max_bytes : option Z.

Lemma enforce_loop_spec (fuel : nat) : forall db lines bytes_ deleted_total loop_guard,
  (loop_guard < 20)%nat -> (20 <= loop_guard + fuel)%nat ->
  exists r,
    enforce_loop measure delete_oldest trim crawler_id max_lines max_bytes
      fuel db lines bytes_ deleted_total loop_guard = Some r /\
    (loop_guard <= er_loop_guard r <= 20)%nat /\
    (er_loop_guard r = 20%nat \/
     ((forall ml, max_lines = Some ml -> er_lines r <= ml) /\
      (forall mb, max_bytes = Some mb -> er_bytes r <= mb))).
Proof.
  induction fuel as [|fuel IH]; intros db lines bytes_ deleted_total loop_guard Hg Hf.
  - lia.
  - cbn [enforce_loop].
    destruct (Z.leb_spec (need_delete_of trim max_lines max_bytes lines bytes_) 0) as [Hn|Hn].
    + eexists; split; [reflexivity|]. simpl. split; [lia|].
      right. by apply (need_delete_nonpos_within trim).
    + destruct (delete_oldest db crawler_id _) as [db' deleted].
      destruct (measure db' crawler_id) as [lines' bytes'].
      destruct (Nat.leb_spec 20 (S loop_guard)) as [H20|H20].
      * eexists; split; [reflexivity|]. simpl. split; [lia|]. left. lia.
      * destruct (IH db' lines' bytes' (deleted_total + deleted) (S loop_guard))
          as (r & Hr & Hb & Hp); [lia|lia|].
        exists r. split; [exact Hr|]. split; [lia|exact Hp].
Qed.
End EnforceLoopProofs.

(** Data of C4: a limit of 2 lines by default and a crawler that already
    stores 2 lines. *)
Definition c4_settings : Settings := mkSettings 2 (100 * 1024 * 1024) 10000.
Definition c4_crawler : Crawler := mkCrawler 1 1 None None "online" None None None None None.
Definition c4_logs : list LogEntry := [mkLogEntry 1 1 "a"; mkLogEntry 2 1 "b"].

(** C4 (code bug): [_enforce_crawler_limits] raises [AttributeError] on
    every call, before it measures or deletes anything, and so does
    [_enforce_user_quota]; [create_log] swallows both, so a log write only
    appends its row and no crawler is ever trimmed.  With a default limit
    of 2 lines, a crawler holding 2 lines holds 3 after a write. *)
Theorem create_log_never_trims (s : Settings) (default_quota : Z) (fuel : nat)
    (crawlers : gmap positive Crawler) (logs : list LogEntry) (api_key : APIKey) (u : User)
    (crawler_id : positive) (message : string) (new_id : positive) :
  (forall c, _enforce_crawler_limits s fuel logs c = Raise AttributeError) /\
  _enforce_user_quota s default_quota fuel crawlers logs u = Raise AttributeError /\
  create_log s default_quota fuel crawlers logs api_key u crawler_id message new_id =
    (let? c := find_user_crawler crawlers (ak_user_id api_key) crawler_id in
     Ok (mkLogEntry new_id (cr_id c) message, logs ++ [mkLogEntry new_id (cr_id c) message])) /\
  (exists logs',
     create_log c4_settings default_quota fuel {[1%positive := c4_crawler]} c4_logs
       (mkAPIKey 1 1) u 1 "c" 3 = Ok (mkLogEntry 3 1 "c", logs') /\
     fst (_measure_crawler_usage logs' 1) = 3 /\
     fst (_measure_crawler_usage c4_logs 1) = DEFAULT_CRAWLER_LOG_MAX_LINES c4_settings).
Proof.
  split; [reflexivity|]. split; [reflexivity|]. split.
  - unfold create_log. destruct (find_user_crawler crawlers (ak_user_id api_key) crawler_id);
      reflexivity.
  - eexists. split; [reflexivity|]. split; reflexivity.
Qed.

(* ------------------------------------------------------------------ *)
(** ** Alert rule targets *)

(** C10: a rule whose [target_ids] is empty or null matches every crawler,
    whatever its [target_type]. *)
Theorem match_alert_rule_target_empty_ids (rule : AlertRule) (c : Crawler) :
  (ar_target_ids rule = None \/ ar_target_ids rule = Some []) ->
  _match_alert_rule_target rule c = true.
Proof.
  intros Hids. unfold _match_alert_rule_target.
  destruct Hids as [-> | ->]; rewrite orb_true_r; reflexivity.
Qed.

(** Witness of C10: a [crawler]-typed rule with no ids and a crawler [7]. *)
Lemma match_alert_rule_target_empty_ids_witness :
  _match_alert_rule_target
    (mkAlertRule 3 1 "status_offline" "crawler" (Some []) None None None None None true None)
    (mkCrawler 7 1 None None "online" None None None None None) = true.
Proof.
  apply match_alert_rule_target_empty_ids. right. reflexivity.
Defined.

(* ------------------------------------------------------------------ *)
(** ** Config assignment resolution *)

(** An assignment row the resolver may return for target [(kind, key)]. *)
Definition eligible (rows : list ConfigAssignment) (uid : positive) (kind : string)
    (key : positive) (a : ConfigAssignment) : Prop :=
  a ∈ rows /\ ca_user_id a = uid /\ ca_is_active a = true /\
  ca_target_type a = kind /\ ca_target_id a = key.

Lemma map_get_bucket_insert (m : AssignmentMap) (item : ConfigAssignment) kind key :
  map_get (bucket_insert m item) kind key =
  if decide (kind = ca_target_type item /\ key = ca_target_id item)
  then Some item else map_get m kind key.
Proof.
  unfold map_get, bucket_insert.
  destruct (decide (kind = ca_target_type item)) as [->|Hk].
  - rewrite lookup_insert_eq. simpl.
    destruct (decide (key = ca_target_id item)) as [->|Hi].
    + rewrite lookup_insert_eq. case_decide; naive_solver.
    + rewrite lookup_insert_ne by congruence. case_decide; naive_solver.
  - rewrite lookup_insert_ne by congruence. case_decide; naive_solver.
Qed.

Lemma map_get_foldl_inv (l : list ConfigAssignment) : forall m kind key a,
  map_get (foldl bucket_insert m l) kind key = Some a ->
  (a ∈ l /\ ca_target_type a = kind /\ ca_target_id a = key) \/ map_get m kind key = Some a.
Proof.
  induction l as [|x l IH]; intros m kind key a H; simpl in *; [by right|].
  destruct (IH _ _ _ _ H) as [(Hin & Ht & Hi)|Hm].
  - left. split; [by right|done].
  - rewrite map_get_bucket_insert in Hm. case_decide as Hd.
    + injection Hm as <-. left. destruct Hd. split; [left|]; done.
    + by right.
Qed.

Lemma map_get_foldl_some (l : list ConfigAssignment) : forall m kind key,
  (exists a, a ∈ l /\ ca_target_type a = kind /\ ca_target_id a = key) \/
  is_Some (map_get m kind key) ->
  is_Some (map_get (foldl bucket_insert m l) kind key).
Proof.
  induction l as [|x l IH]; intros m kind key H; simpl.
  - destruct H as [(a & Ha & _)|H]; [by apply not_elem_of_nil in Ha | done].
  - apply IH. rewrite map_get_bucket_insert.
    destruct H as [(a & Ha & Ht & Hi)|H].
    + apply elem_of_cons in Ha as [->|Ha].
      * right. case_decide; [done|naive_solver].
      * left. eauto.
    + right. case_decide; done.
Qed.

Lemma map_get_initial kind key :
  map_get (<["crawler" := ∅]> (<["api_key" := ∅]> (<["group" := ∅]> ∅)) : AssignmentMap)
    kind key = None.
Proof.
  unfold map_get.
  destruct (decide (kind = "crawler")) as [->|H1]; [by rewrite lookup_insert_eq|].
  rewrite lookup_insert_ne by congruence.
  destruct (decide (kind = "api_key")) as [->|H2]; [by rewrite lookup_insert_eq|].
  rewrite lookup_insert_ne by congruence.
  destruct (decide (kind = "group")) as [->|H3]; [by rewrite lookup_insert_eq|].
  rewrite lookup_insert_ne by congruence. by rewrite lookup_empty.
Qed.

(** The targets a crawler's resolution looks up. *)
Definition relevant_target (c : Crawler) (kind : string) (key : positive) : Prop :=
  (kind = "crawler" /\ key = cr_id c) \/
  (kind = "api_key" /\ cr_api_key_id c = Some key) \/
  (kind = "group" /\ cr_group_id c = Some key).

Definition crawler_assignment_map (rows : list ConfigAssignment) (uid : positive)
    (c : Crawler) : AssignmentMap :=
  _build_assignment_map rows uid [cr_id c]
    (option_list (cr_api_key_id c)) (option_list (cr_group_id c)).

Lemma crawler_assignment_map_inv rows uid c kind key a :
  map_get (crawler_assignment_map rows uid c) kind key = Some a ->
  eligible rows uid kind key a.
Proof.
  unfold crawler_assignment_map, _build_assignment_map. cbn [when_nonempty app].
  intros H. apply map_get_foldl_inv in H as [(Hin & Ht & Hi)|H].
  - apply list_elem_of_filter in Hin as [Hp Hin].
    apply andb_prop in Hp as [Hp _]. apply andb_prop in Hp as [Hu Ha].
    apply Pos.eqb_eq in Hu. repeat split; done.
  - by rewrite map_get_initial in H.
Qed.

Lemma crawler_assignment_map_some rows uid c kind key :
  relevant_target c kind key ->
  (exists a, eligible rows uid kind key a) ->
  is_Some (map_get (crawler_assignment_map rows uid c) kind key).
Proof.
  intros Hrel (a & Hin & Hu & Hact & Ht & Hi).
  unfold crawler_assignment_map, _build_assignment_map. cbn [when_nonempty app].
  apply map_get_foldl_some. left. exists a. split; [|done].
  apply list_elem_of_filter. split; [|done].
  rewrite Hu, Hact, Pos.eqb_refl. simpl.
  destruct Hrel as [(-> & ->)|[(-> & Hk)|(-> & Hg)]]; rewrite ?Hk, ?Hg;
    destruct (cr_api_key_id c), (cr_group_id c); simpl;
    rewrite Ht, Hi; simpl; rewrite ?Pos.eqb_refl; simpl; by rewrite ?orb_true_r.
Qed.

(** C6: only active assignments of the owner are returned, with precedence
    crawler-level, then credential-level, then group-level, then none; in
    particular a crawler-level assignment always wins. *)
Theorem get_effective_assignment_precedence (rows : list ConfigAssignment)
    (uid : positive) (c : Crawler) :
  let r := _get_effective_assignment rows uid c in
  ((exists a, eligible rows uid "crawler" (cr_id c) a) ->
     exists a, r = Some a /\ eligible rows uid "crawler" (cr_id c) a) /\
  ((~ exists a, eligible rows uid "crawler" (cr_id c) a) ->
     forall k, cr_api_key_id c = Some k ->
     (exists a, eligible rows uid "api_key" k a) ->
     exists a, r = Some a /\ eligible rows uid "api_key" k a) /\
  ((~ exists a, eligible rows uid "crawler" (cr_id c) a) ->
     (forall k, cr_api_key_id c = Some k -> ~ exists a, eligible rows uid "api_key" k a) ->
     forall g, cr_group_id c = Some g ->
     (exists a, eligible rows uid "group" g a) ->
     exists a, r = Some a /\ eligible rows uid "group" g a) /\
  ((~ exists a, eligible rows uid "crawler" (cr_id c) a) ->
     (forall k, cr_api_key_id c = Some k -> ~ exists a, eligible rows uid "api_key" k a) ->
     (forall g, cr_group_id c = Some g -> ~ exists a, eligible rows uid "group" g a) ->
     r = None).
Proof.
  unfold _get_effective_assignment, _resolve_assignment_from_map.
  fold (crawler_assignment_map rows uid c).
  set (M := crawler_assignment_map rows uid c).
  assert (Hinv : forall kind key a, map_get M kind key = Some a -> eligible rows uid kind key a)
    by (intros kind key a H; exact (crawler_assignment_map_inv rows uid c kind key a H)).
  assert (Hsome : forall kind key, relevant_target c kind key ->
            (exists a, eligible rows uid kind key a) -> is_Some (map_get M kind key))
    by (intros kind key H1 H2; exact (crawler_assignment_map_some rows uid c kind key H1 H2)).
  assert (Hnone : forall kind key, ~ (exists a, eligible rows uid kind key a) ->
            map_get M kind key = None).
  { intros kind key Hn. destruct (map_get M kind key) eqn:E; [|done].
    exfalso. apply Hn. eauto. }
  simpl. repeat split.
  - intros Hex. destruct (Hsome "crawler" (cr_id c)) as [a Ha];
      [left; done|done|]. rewrite Ha. eauto.
  - intros Hc k Hk Hex. rewrite (Hnone _ _ Hc), Hk.
    destruct (Hsome "api_key" k) as [a Ha]; [right; left; done|done|].
    rewrite Ha. eauto.
  - intros Hc Hk g Hg Hex. rewrite (Hnone _ _ Hc).
    destruct (cr_api_key_id c) as [k|] eqn:Ek.
    + rewrite (Hnone _ _ (Hk k eq_refl)). rewrite Hg.
      destruct (Hsome "group" g) as [a Ha]; [right; right; done|done|].
      rewrite Ha. eauto.
    + rewrite Hg. destruct (Hsome "group" g) as [a Ha]; [right; right; done|done|].
      rewrite Ha. eauto.
  - intros Hc Hk Hg. rewrite (Hnone _ _ Hc).
    destruct (cr_api_key_id c) as [k|] eqn:Ek.
    + rewrite (Hnone _ _ (Hk k eq_refl)).
      destruct (cr_group_id c) as [g|] eqn:Eg; [|done].
      by rewrite (Hnone _ _ (Hg g eq_refl)).
    + destruct (cr_group_id c) as [g|] eqn:Eg; [|done].
      by rewrite (Hnone _ _ (Hg g eq_refl)).
Qed.

(** Witness of C6: active assignments at all three levels of crawler [1];
    the crawler-level one is returned. *)
Definition witness_assignment (id : positive) (kind : string) : ConfigAssignment :=
  mkConfigAssignment id 1 "cfg" None "json" "{}" 1 kind 1 true None.
Definition witness_rows : list ConfigAssignment :=
  [witness_assignment 3 "group"; witness_assignment 2 "api_key"; witness_assignment 1 "crawler"].
Definition witness_assignee : Crawler :=
  mkCrawler 1 1 (Some 1%positive) (Some 1%positive) "online" None None None None None.

Lemma get_effective_assignment_precedence_witness :
  exists a, _get_effective_assignment witness_rows 1 witness_assignee = Some a /\
            eligible witness_rows 1 "crawler" 1 a.
Proof.
  apply (proj1 (get_effective_assignment_precedence witness_rows 1 witness_assignee)).
  exists (witness_assignment 1 "crawler").
  split; [|split; [reflexivity|split; [reflexivity|split; reflexivity]]].
  unfold witness_rows. do 2 apply list_elem_of_further. apply list_elem_of_here.
Defined.

(* ------------------------------------------------------------------ *)
(** ** Command queue *)

Section SortLemmas.
Context {A : Type} (key : A -> Z).
Let R := fun a b => key a <= key b.

Lemma elem_of_insert_by x y (l : list A) : x ∈ insert_by key y l <-> x = y \/ x ∈ l.
Proof.
  induction l as [|z l IH]; simpl.
  - rewrite elem_of_cons. split; [intros [->|H]; [by left|by apply not_elem_of_nil in H]|].
    intros [->|H]; [by left|by apply not_elem_of_nil in H].
  - destruct (key z <=? key y).
    + rewrite !elem_of_cons, IH. tauto.
    + rewrite !elem_of_cons. tauto.
Qed.

Lemma elem_of_sort_by x (l : list A) : x ∈ sort_by key l <-> x ∈ l.
Proof.
  induction l as [|z l IH]; simpl; [done|].
  rewrite elem_of_insert_by, elem_of_cons, IH. tauto.
Qed.

Lemma insert_by_hdrel y x (l : list A) :
  HdRel R y l -> R y x -> HdRel R y (insert_by key x l).
Proof.
  destruct l as [|z l]; simpl; intros Hd Hyx.
  - by constructor.
  - destruct (key z <=? key x); constructor; [by inversion Hd|done].
Qed.

Lemma insert_by_sorted x (l : list A) : Sorted R l -> Sorted R (insert_by key x l).
Proof.
  induction l as [|z l IH]; simpl; intros Hs.
  - repeat constructor.
  - destruct (Z.leb_spec (key z) (key x)) as [Hle|Hlt].
    + apply Sorted_inv in Hs as [Hs Hd]. constructor; [by apply IH|].
      by apply insert_by_hdrel.
    + constructor; [done|]. constructor. unfold R. lia.
Qed.

Lemma sort_by_sorted (l : list A) : Sorted R (sort_by key l).
Proof.
  induction l as [|z l IH]; simpl; [constructor|]. by apply insert_by_sorted.
Qed.

Lemma take_sorted n (l : list A) : Sorted R l -> Sorted R (take n l).
Proof.
  revert n. induction l as [|z l IH]; intros n Hs; [by rewrite take_nil|].
  destruct n as [|n]; simpl; [constructor|].
  apply Sorted_inv in Hs as [Hs Hd]. constructor; [by apply IH|].
  destruct l as [|w l]; destruct n; simpl; constructor. by inversion Hd.
Qed.
End SortLemmas.

Lemma elem_of_take_l {A} (x : A) n (l : list A) : x ∈ take n l -> x ∈ l.
Proof.
  revert n. induction l as [|z l IH]; intros n H; [by rewrite take_nil in H|].
  destruct n; simpl in H; [by apply not_elem_of_nil in H|].
  apply elem_of_cons in H as [->|H]; [by left|right; by eapply IH].
Qed.

(** C7: a pull returns at most 5 commands, each a row of the crawler that
    is pending and not expired at [now], ordered by [created_at] ascending;
    an expired pending command is never returned. *)
Theorem fetch_commands_pending_fifo (crawlers : gmap positive Crawler)
    (commands : gmap positive Command) (uid crawler_id : positive) (now_ : Z)
    (res : list Command) :
  fetch_commands crawlers commands uid crawler_id now_ = Ok res ->
  (length res <= 5)%nat /\
  (forall c, c ∈ res ->
     (exists i, commands !! i = Some c) /\ cmd_crawler_id c = crawler_id /\
     cmd_status c = "pending" /\
     (cmd_expires_at c = None \/ exists e, cmd_expires_at c = Some e /\ now_ <= e)) /\
  Sorted (fun a b => cmd_created_at a <= cmd_created_at b) res /\
  (forall c e, cmd_expires_at c = Some e -> e < now_ -> c ∉ res).
Proof.
  unfold fetch_commands, obind.
  destruct (find_user_crawler crawlers uid crawler_id); [|discriminate].
  match goal with |- Ok (limit _ (sort_by _ ?l)) = _ -> _ => remember l as L eqn:HL end.
  intros H.
  assert (Hres : limit COMMAND_FETCH_BATCH (sort_by cmd_created_at L) = res) by congruence.
  rewrite <- Hres. clear H Hres. unfold limit, COMMAND_FETCH_BATCH.
  assert (Hmem : forall c, c ∈ take 5 (sort_by cmd_created_at L) ->
     (exists i, commands !! i = Some c) /\ cmd_crawler_id c = crawler_id /\
     cmd_status c = "pending" /\
     (cmd_expires_at c = None \/ exists e, cmd_expires_at c = Some e /\ now_ <= e)).
  { intros c Hc. subst L. apply elem_of_take_l, elem_of_sort_by, list_elem_of_filter in Hc
      as [Hf Hc].
    apply list_elem_of_In, in_map_iff in Hc as [[i c'] [Heq Hin]]. simpl in Heq. subst c'.
    apply list_elem_of_In, elem_of_map_to_list in Hin.
    unfold fetch_filter in Hf.
    apply andb_prop in Hf as [Hf He]. apply andb_prop in Hf as [Hc Hs].
    apply Pos.eqb_eq in Hc. apply String.eqb_eq in Hs.
    split; [eauto|]. split; [done|]. split; [done|].
    destruct (cmd_expires_at c) as [e|]; [|by left].
    right. exists e. split; [done|]. by apply Z.leb_le. }
  split; [|split; [exact Hmem|split]].
  - apply firstn_le_length.
  - apply take_sorted, sort_by_sorted.
  - intros c e He Hlt Hin. destruct (Hmem c Hin) as (_ & _ & _ & [Hn|(e' & He' & Hle)]).
    + congruence.
    + rewrite He in He'. injection He' as <-. lia.
Qed.

Definition witness_commands : gmap positive Command :=
  <[2%positive := mkCommand 2 1 "stop" None "pending" None 20 None None]>
  {[1%positive := mkCommand 1 1 "restart" None "pending" None 10 (Some 5) None]}.

(** Witness of C7: the expired command [1] is left out, command [2] is returned. *)
Lemma fetch_commands_pending_fifo_witness :
  fetch_commands {[1%positive := witness_assignee]} witness_commands 1 1 100
    = Ok [mkCommand 2 1 "stop" None "pending" None 20 None None] /\
  (length [mkCommand 2 1 "stop" None "pending" None 20 None None] <= 5)%nat.
Proof.
  split; [vm_compute; reflexivity|].
  apply (fetch_commands_pending_fifo {[1%positive := witness_assignee]} witness_commands 1 1 100).
  vm_compute. reflexivity.
Defined.

(** C8: acknowledging an existing command twice succeeds both times; the
    table keeps the same rows and the command row is exactly the one a
    single acknowledgement with the second payload would give: status,
    result and [processed_at] of the last acknowledgement. *)
Theorem acknowledge_command_twice_last_wins (crawlers : gmap positive Crawler)
    (commands : gmap positive Command) (uid crawler_id command_id : positive)
    (c : Command) (cr : Crawler) (p1 p2 : CommandAck) (t1 t2 : Z) :
  commands !! command_id = Some c ->
  cmd_crawler_id c = crawler_id ->
  crawlers !! crawler_id = Some cr ->
  cr_user_id cr = uid ->
  exists commands1 r1 commands2 r2,
    acknowledge_command crawlers commands uid crawler_id command_id p1 t1
      = Ok (commands1, r1) /\
    acknowledge_command crawlers commands1 uid crawler_id command_id p2 t2
      = Ok (commands2, r2) /\
    commands2 = <[command_id := apply_ack p2 t2 c]> commands /\
    dom commands2 = dom commands /\
    r2 = apply_ack p2 t2 c /\
    cmd_status r2 = py_or_str (ack_status p2) "done" /\
    cmd_result r2 = Some (dict_or_empty (ack_result p2)) /\
    cmd_processed_at r2 = Some t2.
Proof.
  intros Hc Hcid Hcr Huid.
  unfold acknowledge_command. rewrite Hc.
  simpl. rewrite Hcid, Pos.eqb_refl, Hcr, Huid, Pos.eqb_refl. simpl.
  exists (<[command_id := apply_ack p1 t1 c]> commands), (apply_ack p1 t1 c),
    (<[command_id := apply_ack p2 t2 c]> (<[command_id := apply_ack p1 t1 c]> commands)),
    (apply_ack p2 t2 c).
  split; [reflexivity|].
  rewrite lookup_insert_eq. simpl. rewrite Hcid, Pos.eqb_refl, Hcr, Huid, Pos.eqb_refl. simpl.
  split; [reflexivity|].
  split; [by rewrite insert_insert_eq|].
  split; [rewrite insert_insert_eq, dom_insert_L;
          apply elem_of_dom_2 in Hc; set_solver|].
  split; [reflexivity|]. done.
Qed.

(** Witness of C8: command [2] of [witness_commands], acknowledged as
    ["failed"] and then as ["success"]. *)
Lemma acknowledge_command_twice_last_wins_witness :
  exists commands1 r1 commands2 r2,
    acknowledge_command {[1%positive := witness_assignee]} witness_commands 1 1 2
      (mkCommandAck (Some "failed") None) 50 = Ok (commands1, r1) /\
    acknowledge_command {[1%positive := witness_assignee]} commands1 1 1 2
      (mkCommandAck (Some "success") (Some [("n", JInt 1)])) 60 = Ok (commands2, r2) /\
    commands2 = <[2%positive := apply_ack (mkCommandAck (Some "success") (Some [("n", JInt 1)])) 60
                   (mkCommand 2 1 "stop" None "pending" None 20 None None)]> witness_commands /\
    dom commands2 = dom witness_commands /\
    r2 = apply_ack (mkCommandAck (Some "success") (Some [("n", JInt 1)])) 60
           (mkCommand 2 1 "stop" None "pending" None 20 None None) /\
    cmd_status r2 = py_or_str (Some "success") "done" /\
    cmd_result r2 = Some (dict_or_empty (Some [("n", JInt 1)])) /\
    cmd_processed_at r2 = Some 60.
Proof.
  apply (acknowledge_command_twice_last_wins {[1%positive := witness_assignee]} witness_commands
           1 1 2 (mkCommand 2 1 "stop" None "pending" None 20 None None) witness_assignee
           (mkCommandAck (Some "failed") None)
           (mkCommandAck (Some "success") (Some [("n", JInt 1)])) 50 60);
    vm_compute; reflexivity.
Defined.

(* ------------------------------------------------------------------ *)
(** ** Config assignment versioning *)

(** C9: a successful update stores the updated row; it bumps [version] by
    exactly one when the new (stripped) content differs from the stored
    content, and leaves [version] unchanged when the content is not
    edited: no content in the request (metadata only) or the same content. *)
Theorem update_config_assignment_version
    (assignments : gmap positive ConfigAssignment) (templates : gmap positive ConfigTemplate)
    (assignment_id : positive) (payload : ConfigAssignmentUpdate) (u : User)
    (a : ConfigAssignment) (tbl : gmap positive ConfigAssignment) (a' : ConfigAssignment) :
  assignments !! assignment_id = Some a ->
  update_config_assignment assignments templates assignment_id payload u = Ok (tbl, a') ->
  tbl !! assignment_id = Some a' /\
  (forall c, upd_content payload = Some c -> py_strip c <> ca_content a ->
     ca_version a' = ca_version a + 1) /\
  (forall c, upd_content payload = Some c -> py_strip c = ca_content a ->
     ca_version a' = ca_version a) /\
  (upd_content payload = None -> ca_version a' = ca_version a).
Proof.
  intros Ha H. unfold update_config_assignment, obind in H. rewrite Ha in H.
  destruct (_ensure_crawler_feature u); [|discriminate].
  destruct (Pos.eqb (ca_user_id a) (user_id u)); [|discriminate].
  repeat match goal with
         | Hx : context [match ?x with _ => _ end] |- _ =>
             lazymatch x with
             | Ok _ => fail
             | Raise _ => fail
             | _ => destruct x eqn:?; try discriminate Hx; simpl in Hx
             end
         end;
  simplify_eq/=; (split; [by rewrite lookup_insert_eq|]);
  repeat match goal with E : upd_content payload = _ |- _ => rewrite E; clear E end;
  simpl in *;
  repeat match goal with
         | E : negb _ = true |- _ => apply Bool.negb_true_iff in E
         | E : negb _ = false |- _ => apply Bool.negb_false_iff in E
         | E : (_ =? _)%string = true |- _ => apply String.eqb_eq in E
         | E : (_ =? _)%string = false |- _ => apply String.eqb_neq in E
         end;
  (split; [|split]); intros; simplify_eq; try done; try congruence.
Qed.

(** Witness of C9: new content for assignment [1] of [witness_rows]. *)
Lemma update_config_assignment_version_witness :
  exists tbl a',
    update_config_assignment {[1%positive := witness_assignment 1 "crawler"]} ∅ 1
      (mkConfigAssignmentUpdate None None None (Some " x=1 ") None None)
      (mkUser 1 "user" None) = Ok (tbl, a') /\
    ca_version a' = ca_version (witness_assignment 1 "crawler") + 1.
Proof.
  do 2 eexists. split; [vm_compute; reflexivity|].
  refine (proj1 (proj2 (update_config_assignment_version
            {[1%positive := witness_assignment 1 "crawler"]} ∅ 1
            (mkConfigAssignmentUpdate None None None (Some " x=1 ") None None)
            (mkUser 1 "user" None) (witness_assignment 1 "crawler") _ _ _ _)) _ eq_refl _);
    vm_compute; [reflexivity|reflexivity|discriminate].
Defined.

(* ------------------------------------------------------------------ *)
(** ** Offline alert scenario and heartbeat atomicity *)

(** C1 (counterexample): offline heartbeats at [t0], [t0+1m], [t0+2m]
    fire the rule once, a fourth one at [t0+3m] is inside the cooldown,
    but a fifth one at [t0+13m], after the cooldown expired, fires
    nothing: the firing reset [consecutive_hits] to 0, so only two hits
    have been counted since. *)
Lemma offline_alert_fifth_heartbeat_no_event :
  Scenario.event_counts Scenario.cmp0 Scenario.send_ok
    [Scenario.t0; Scenario.t0 + Scenario.minute; Scenario.t0 + 2 * Scenario.minute;
     Scenario.t0 + 3 * Scenario.minute; Scenario.t0 + 13 * Scenario.minute]
    Scenario.db_offline_rule = [0; 0; 1; 1; 1]%nat.
Proof. vm_compute. reflexivity. Qed.

Lemma event_counts_snoc cmp disp (ts : list Z) (t : Z) (db : DB) :
  Scenario.event_counts cmp disp (ts ++ [t]) db =
  Scenario.event_counts cmp disp ts db ++
    [length (db_events (Scenario.hb cmp disp t
               (fold_left (fun d t' => Scenario.hb cmp disp t' d) ts db)))].
Proof.
  revert db. induction ts as [|t' ts IH]; intros db; simpl; [done|]. by rewrite IH.
Qed.

(** C1 (amended): for a crawler registered at any time [t_reg] and offline
    heartbeats from any time [t], whatever the comparison and the dispatch
    outcome, the second event of the scenario comes with the sixth offline
    heartbeat ([t+14m]), the third one counted after the first firing and
    outside the cooldown; the heartbeats at [t+3m] and [t+13m] add none. *)
Theorem offline_alert_second_event_sixth_heartbeat cmp disp (t_reg t : Z) :
  Scenario.event_counts cmp disp
    [t; t + Scenario.minute; t + 2 * Scenario.minute;
     t + 3 * Scenario.minute; t + 13 * Scenario.minute;
     t + 14 * Scenario.minute]
    (Scenario.db_offline_rule_at t_reg) = [0; 0; 1; 1; 1; 2]%nat.
Proof.
  (* The only time comparison the six heartbeats depend on: the cooldown
     test of the sixth, against the firing at [t+2m]. *)
  assert (Hc : forall r st, ar_cooldown_minutes r = Some 10 ->
             as_last_triggered_at st = Some (t + 2 * Scenario.minute) ->
             _in_cooldown (t + 14 * Scenario.minute) r st = false).
  { intros r st Hr Hs. unfold _in_cooldown. rewrite Hr, Hs. cbn -[Z.sub Z.ltb].
    apply Z.ltb_ge. unfold Scenario.minute, US_PER_SECOND. lia. }
  remember (t + Scenario.minute) as t2 eqn:E2.
  remember (t + 2 * Scenario.minute) as t3 eqn:E3.
  remember (t + 3 * Scenario.minute) as t4 eqn:E4.
  remember (t + 13 * Scenario.minute) as t5 eqn:E5.
  remember (t + 14 * Scenario.minute) as t6 eqn:E6.
  change [t; t2; t3; t4; t5; t6] with ([t; t2; t3; t4; t5] ++ [t6]).
  rewrite event_counts_snoc.
  change [0; 0; 1; 1; 1; 2]%nat with ([0; 0; 1; 1; 1] ++ [2])%nat.
  apply (f_equal2 (@app nat)).
  { with_strategy transparent [gmap_empty] cbv -[Z.sub]. reflexivity. }
  apply (f_equal (fun n => [n])).
  remember (fold_left _ _ _) as db5 eqn:Edb5.
  with_strategy transparent [gmap_empty] cbv -[Z.sub] in Edb5.
  subst db5.
  with_strategy transparent [gmap_empty] cbv -[Z.sub _in_cooldown].
  rewrite Hc by reflexivity.
  with_strategy transparent [gmap_empty] cbv -[Z.sub].
  reflexivity.
Qed.

(** C2: a payload rule on ["cpu"] and a heartbeat whose ["cpu"] is an
    integer too large for a float: [float(value)] in
    [_evaluate_payload_rule] raises [OverflowError], nothing in
    [heartbeat] catches it before [db.commit()], so the request fails and
    the database is left as it was: no crawler update, no heartbeat row. *)
Theorem heartbeat_payload_overflow_rolls_back cmp disp :
  heartbeat cmp disp 1 Scenario.huge_cpu_heartbeat Scenario.api_key None Scenario.t0
    Scenario.db_cpu_rule = (Scenario.db_cpu_rule, Raise OverflowError).
Proof. vm_compute. reflexivity. Qed.

(* ------------------------------------------------------------------ *)
(** * Properties of the further functions *)

Lemma split_on_char_nonempty sep s : split_on_char sep s <> [].
Proof.
  destruct s as [|ch rest]; simpl; [done|].
  destruct (Ascii.eqb ch sep); [done|]. destruct (split_on_char sep rest); done.
Qed.

Lemma split_on_char_app sep a b :
  split_on_char sep (String.append a (String sep b)) = split_on_char sep a ++ split_on_char sep b.
Proof.
  induction a as [|ch a IH]; simpl.
  - by rewrite Ascii.eqb_refl.
  - destruct (Ascii.eqb ch sep); [by rewrite IH|].
    rewrite IH. pose proof (split_on_char_nonempty sep a) as Hne.
    destruct (split_on_char sep a); done.
Qed.

Lemma parse_id_chunks_app l1 l2 ids :
  parse_id_chunks (l1 ++ l2) ids = parse_id_chunks l2 (parse_id_chunks l1 ids).
Proof.
  revert ids; induction l1 as [|c l1 IH]; intros ids; simpl; [done|].
  destruct (String.eqb (py_strip c) ""); [done|]. destruct (py_int (py_strip c)); done.
Qed.

Lemma parse_id_chunks_acc l ids :
  parse_id_chunks l ids = ids ++ parse_id_chunks l [].
Proof.
  revert ids; induction l as [|c l IH]; intros ids; simpl; [by rewrite app_nil_r|].
  destruct (String.eqb (py_strip c) ""); [done|].
  destruct (py_int (py_strip c)); [|done].
  rewrite IH, (IH [z]). by rewrite app_assoc.
Qed.

Lemma parse_id_list_raw r :
  _parse_id_list (Some r) = parse_id_chunks (split_on_char COMMA r) [].
Proof.
  unfold _parse_id_list. destruct (String.eqb_spec r ""); [subst; reflexivity|done].
Qed.

Lemma parse_id_list_app a b :
  _parse_id_list (Some (String.append a (String COMMA b))) = _parse_id_list (Some a) ++ _parse_id_list (Some b).
Proof.
  rewrite !parse_id_list_raw, split_on_char_app, parse_id_chunks_app.
  apply parse_id_chunks_acc.
Qed.

(** X1: [_parse_id_list] of two comma-joined strings is the concatenation
    of the ids parsed from each: chunks are parsed independently. *)
Theorem parse_id_list_concat a b :
  _parse_id_list (Some (String.append a (String COMMA b))) = _parse_id_list (Some a) ++ _parse_id_list (Some b).
Proof. apply parse_id_list_app. Qed.

Lemma parse_group_chunks_no_none l ids b ids' :
  parse_group_chunks l ids b = (ids', false) -> b = false /\ ids' = parse_id_chunks l ids.
Proof.
  revert ids b; induction l as [|c l IH]; intros ids b H; simpl in *.
  - by injection H as -> ->.
  - destruct (String.eqb (py_strip c) ""); [by apply IH|].
    destruct (String.eqb (py_lower (py_strip c)) "none" || String.eqb (py_lower (py_strip c)) "null"
              || String.eqb (py_lower (py_strip c)) "0").
    + apply IH in H. destruct H; discriminate.
    + destruct (py_int (py_strip c)); by apply IH.
Qed.

(** X2: when [_parse_group_filters] reports no "none" chunk, its ids are
    exactly those [_parse_id_list] parses from the same parameter. *)
Theorem parse_group_filters_without_none raw :
  snd (_parse_group_filters raw) = false -> fst (_parse_group_filters raw) = _parse_id_list raw.
Proof.
  destruct raw as [r|]; simpl; [|done].
  destruct (String.eqb r ""); [done|].
  destruct (parse_group_chunks (split_on_char COMMA r) [] false) as [ids b] eqn:E.
  simpl. intros ->. by apply parse_group_chunks_no_none in E as [_ ->].
Qed.

(** Witness of X2: ["3, 5,x"] has no "none" chunk. *)
Lemma parse_group_filters_without_none_witness :
  snd (_parse_group_filters (Some "3, 5,x")) = false /\
  fst (_parse_group_filters (Some "3, 5,x")) = _parse_id_list (Some "3, 5,x").
Proof.
  assert (H : snd (_parse_group_filters (Some "3, 5,x")) = false) by (vm_compute; reflexivity).
  split; [exact H|]. exact (parse_group_filters_without_none (Some "3, 5,x") H).
Defined.

Lemma digit_char_spec d : 0 <= d < 10 ->
  digit_value (digit_char d) = Some d /\ Ascii.eqb (digit_char d) PLUS = false
  /\ Ascii.eqb (digit_char d) MINUS = false.
Proof.
  intros Hd. assert (d = 0 \/ d = 1 \/ d = 2 \/ d = 3 \/ d = 4 \/ d = 5 \/ d = 6
    \/ d = 7 \/ d = 8 \/ d = 9) as Hc by lia.
  repeat destruct Hc as [->|Hc]; [..|subst]; vm_compute; auto.
Qed.

Lemma digit_not_space ch : is_digit_char ch = true -> is_py_space ch = false.
Proof.
  unfold is_digit_char, digit_value, is_py_space.
  destruct (48 <=? Ascii.nat_of_ascii ch)%nat eqn:E1; [|done].
  destruct (Ascii.nat_of_ascii ch <=? 57)%nat eqn:E2; [|done]. intros _.
  apply Nat.leb_le in E1. apply Nat.leb_le in E2.
  destruct (9 <=? _)%nat eqn:E3, (_ <=? 13)%nat eqn:E4,
           (28 <=? _)%nat eqn:E5, (_ <=? 32)%nat eqn:E6; simpl; try done;
  rewrite ?Nat.leb_le, ?Nat.leb_gt in *; lia.
Qed.

Lemma digit_not_comma ch : is_digit_char ch = true -> Ascii.eqb ch COMMA = false.
Proof.
  intros H. destruct (Ascii.eqb_spec ch COMMA); [subst; discriminate|done].
Qed.

Lemma string_forall_rev p s acc :
  string_forall p (rev_string s acc) = string_forall p s && string_forall p acc.
Proof.
  revert acc; induction s as [|ch s IH]; intros acc; simpl; [done|].
  rewrite IH; simpl. destruct (p ch), (string_forall p s), (string_forall p acc); done.
Qed.

Lemma rev_string_rev_string s acc :
  rev_string (rev_string s acc) EmptyString = rev_string acc s.
Proof.
  revert acc; induction s as [|ch s IH]; intros acc; simpl; [done|].
  by rewrite IH.
Qed.

Lemma lstrip_nonspace s :
  string_forall (fun ch => negb (is_py_space ch)) s = true -> lstrip s = s.
Proof.
  destruct s as [|ch rest]; simpl; [done|].
  destruct (is_py_space ch); done.
Qed.

Lemma py_strip_nonspace s :
  string_forall (fun ch => negb (is_py_space ch)) s = true -> py_strip s = s.
Proof.
  intros H. unfold py_strip. rewrite (lstrip_nonspace s H).
  rewrite lstrip_nonspace; [apply rev_string_rev_string|].
  by rewrite string_forall_rev, H.
Qed.

Lemma string_forall_impl (p q : Ascii.ascii -> bool) s :
  (forall ch, p ch = true -> q ch = true) ->
  string_forall p s = true -> string_forall q s = true.
Proof.
  intros Hpq; induction s as [|ch s IH]; simpl; [done|].
  intros [H1 H2]%andb_prop. rewrite (Hpq _ H1). by apply IH.
Qed.

Lemma split_on_char_none sep s :
  string_forall (fun ch => negb (Ascii.eqb ch sep)) s = true -> split_on_char sep s = [s].
Proof.
  induction s as [|ch s IH]; simpl; [done|].
  intros [H1 H2]%andb_prop. apply negb_true_iff in H1. rewrite H1, IH; done.
Qed.

Lemma nat_digits_digits f n acc :
  0 <= n -> string_forall is_digit_char acc = true ->
  string_forall is_digit_char (nat_digits f n acc) = true.
Proof.
  revert n acc; induction f as [|f IH]; intros n acc Hn Hacc; cbn [nat_digits]; [done|].
  assert (Hd : 0 <= n mod 10 < 10) by (apply Z.mod_pos_bound; lia).
  destruct (digit_char_spec _ Hd) as [Hv _].
  assert (Hacc' : string_forall is_digit_char (String (digit_char (n mod 10)) acc) = true).
  { cbn [string_forall]. unfold is_digit_char at 1. rewrite Hv. done. }
  destruct (n <? 10); [done|]. apply IH; [|done]. apply Z.div_pos; lia.
Qed.

Lemma nat_digits_head f n acc :
  0 <= n -> exists d rest, 0 <= d < 10 /\ nat_digits (S f) n acc = String (digit_char d) rest.
Proof.
  revert n acc; induction f as [|f IH]; intros n acc Hn; cbn [nat_digits].
  - assert (Hd : 0 <= n mod 10 < 10) by (apply Z.mod_pos_bound; lia).
    destruct (n <? 10); eauto.
  - assert (Hd : 0 <= n mod 10 < 10) by (apply Z.mod_pos_bound; lia).
    destruct (n <? 10); [eauto|]. apply IH. apply Z.div_pos; lia.
Qed.

Lemma nat_digits_value f n acc :
  0 <= n -> (Z.to_nat n < f)%nat ->
  int_body (nat_digits f n acc) 0 false = int_body acc n false.
Proof.
  revert n acc; induction f as [|f IH]; intros n acc Hn Hf; [lia|]. cbn [nat_digits].
  assert (Hd : 0 <= n mod 10 < 10) by (apply Z.mod_pos_bound; lia).
  destruct (digit_char_spec _ Hd) as [Hv _].
  destruct (Z.ltb_spec n 10).
  - cbn [int_body]. rewrite Hv. rewrite Z.mod_small by lia. done.
  - rewrite IH.
    + cbn [int_body]. rewrite Hv. f_equal. pose proof (Z.div_mod n 10). lia.
    + apply Z.div_pos; lia.
    + assert (n / 10 < n) by (apply Z.div_lt; lia). lia.
Qed.

Lemma int_unsigned_digit ch rest :
  is_digit_char ch = true -> int_unsigned (String ch rest) = int_body (String ch rest) 0 false.
Proof.
  unfold is_digit_char. cbn [int_unsigned int_body]. destruct (digit_value ch); done.
Qed.

Lemma py_str_int_chars n :
  string_forall (fun ch => is_digit_char ch || Ascii.eqb ch MINUS) (py_str_int n) = true.
Proof.
  unfold py_str_int. destruct (Z.ltb_spec n 0).
  - cbn [string_forall]. rewrite Ascii.eqb_refl, orb_true_r. cbn [andb].
    eapply string_forall_impl; [|apply nat_digits_digits; [lia|done]].
    intros ch ->; done.
  - eapply string_forall_impl; [|apply nat_digits_digits; [lia|done]].
    intros ch ->; done.
Qed.

Lemma py_str_int_nonspace n :
  string_forall (fun ch => negb (is_py_space ch)) (py_str_int n) = true.
Proof.
  eapply string_forall_impl; [|apply py_str_int_chars].
  intros ch [H|H]%orb_prop.
  - by rewrite digit_not_space.
  - apply Ascii.eqb_eq in H. subst. done.
Qed.

Lemma py_str_int_nocomma n :
  string_forall (fun ch => negb (Ascii.eqb ch COMMA)) (py_str_int n) = true.
Proof.
  eapply string_forall_impl; [|apply py_str_int_chars].
  intros ch [H|H]%orb_prop.
  - by rewrite digit_not_comma.
  - apply Ascii.eqb_eq in H. subst. done.
Qed.

Lemma py_int_py_str_int n : py_int (py_str_int n) = Some n.
Proof.
  unfold py_int. rewrite py_strip_nonspace by apply py_str_int_nonspace.
  unfold py_str_int. destruct (Z.ltb_spec n 0).
  - cbn [ Ascii.eqb ]. destruct (nat_digits_head (Z.to_nat (- n)) (- n) EmptyString) as (d & rest & Hd & Heq); [lia|].
    rewrite Heq, int_unsigned_digit, <- Heq.
    + rewrite nat_digits_value by lia. cbn [int_body option_map]. f_equal. lia.
    + unfold is_digit_char. by rewrite (proj1 (digit_char_spec d Hd)).
  - destruct (nat_digits_head (Z.to_nat n) n EmptyString) as (d & rest & Hd & Heq); [lia|].
    destruct (digit_char_spec d Hd) as (Hv & Hp & Hm).
    rewrite Heq, Hp, Hm, int_unsigned_digit, <- Heq.
    + rewrite nat_digits_value by lia. done.
    + unfold is_digit_char. by rewrite Hv.
Qed.

Lemma py_str_int_nonempty n : String.eqb (py_str_int n) "" = false.
Proof.
  unfold py_str_int. destruct (Z.ltb_spec n 0); [done|].
  destruct (nat_digits_head (Z.to_nat n) n EmptyString) as (d & rest & _ & ->); [lia|done].
Qed.

(** X3: [_parse_id_list] inverts [",".join(str(i) for i in ids)]: every
    list of integers (negative ones included) is parsed back unchanged. *)
Theorem parse_id_list_join ids :
  _parse_id_list (Some (join_comma (map py_str_int ids))) = ids.
Proof.
  induction ids as [|x ids IH]; [done|].
  assert (Hx : _parse_id_list (Some (py_str_int x)) = [x]).
  { rewrite parse_id_list_raw, split_on_char_none by apply py_str_int_nocomma.
    cbn [parse_id_chunks]. rewrite py_strip_nonspace by apply py_str_int_nonspace.
    rewrite py_str_int_nonempty, py_int_py_str_int. done. }
  destruct ids as [|y ids]; [exact Hx|].
  change (join_comma (map py_str_int (x :: y :: ids)))
    with (String.append (py_str_int x) (String COMMA (join_comma (map py_str_int (y :: ids))))).
  by rewrite parse_id_list_app, Hx, IH.
Qed.
Lemma LEVEL_CODES_eq : LEVEL_CODES = [0; 10; 20; 30; 40; 50].
Proof. reflexivity. Qed.

Lemma normalize_level_code_spec code :
  In (_normalize_level_code code) LEVEL_CODES /\
  forall c, In c LEVEL_CODES ->
    Z.abs (_normalize_level_code code - code) < Z.abs (c - code) \/
    (Z.abs (_normalize_level_code code - code) = Z.abs (c - code) /\
     _normalize_level_code code <= c).
Proof.
  unfold _normalize_level_code. rewrite LEVEL_CODES_eq. cbn [py_min_by fold_left from_option id].
  repeat match goal with
         | |- context [Z.abs (?x - code) <? Z.abs (?y - code)] =>
             lazymatch y with
             | Z0 => idtac
             | Zpos _ => idtac
             end;
             destruct (Z.ltb_spec (Z.abs (x - code)) (Z.abs (y - code)))
         end;
  (split; [simpl; tauto|]); intros c Hc; simpl in Hc;
  repeat destruct Hc as [<-|Hc]; try contradiction; lia.
Qed.

(** X4: [_normalize_level_code] returns one of the six level codes, one
    nearest to its argument; of two equally near codes, the smaller. *)
Theorem normalize_level_code_nearest code :
  In (_normalize_level_code code) LEVEL_CODES /\
  forall c, In c LEVEL_CODES ->
    Z.abs (_normalize_level_code code - code) < Z.abs (c - code) \/
    (Z.abs (_normalize_level_code code - code) = Z.abs (c - code) /\
     _normalize_level_code code <= c).
Proof. apply normalize_level_code_spec. Qed.

Lemma assoc_lookup_in {K V} (eqb : K -> K -> bool) (Heqb : forall a b, eqb a b = true <-> a = b)
    k v (l : list (K * V)) :
  assoc_lookup eqb k l = Some v -> In (k, v) l.
Proof.
  induction l as [|[k' v'] l IH]; simpl; [done|].
  destruct (eqb k k') eqn:E.
  - intros [= <-]. apply Heqb in E. subst. by left.
  - intros H. right. by apply IH.
Qed.

(** X5: [_resolve_log_level] always returns a (name, code) pair of
    [LOG_LEVEL_CODE_TO_NAME], whatever level name or code it is given. *)
Theorem resolve_log_level_consistent level level_code :
  In (snd (_resolve_log_level level level_code), fst (_resolve_log_level level level_code))
     LOG_LEVEL_CODE_TO_NAME.
Proof.
  destruct level_code as [c|].
  - cbn [_resolve_log_level fst snd].
    destruct (normalize_level_code_spec c) as [Hin _].
    rewrite LEVEL_CODES_eq in Hin.
    repeat destruct Hin as [Hin|Hin]; try contradiction; rewrite <- Hin; simpl; tauto.
  - cbn [_resolve_log_level].
    generalize (default (py_upper (py_or_str (Some level) "INFO"))
                  (assoc_lookup String.eqb (py_upper (py_or_str (Some level) "INFO")) LEVEL_ALIASES)).
    intros k.
    destruct (assoc_lookup String.eqb k LOG_LEVEL_NAME_TO_CODE) as [code|] eqn:E.
    + apply assoc_lookup_in in E; [|apply String.eqb_eq].
      unfold LOG_LEVEL_NAME_TO_CODE in E. apply in_map_iff in E as ([c n] & [= <- <-] & Hin).
      exact Hin.
    + simpl. tauto.
Qed.
(** Data of the witnesses of X13 and X17. *)
Definition x_crawler (id uid : positive) : Crawler :=
  mkCrawler id uid None None "offline" None None None None None.
Definition x_user : User := mkUser 1 "user" None.

Lemma split_on_dot_aux_app s1 s2 cur :
  split_on_dot_aux (String.append s1 (String DOT s2)) cur =
  split_on_dot_aux s1 cur ++ split_on_dot s2.
Proof.
  revert cur. induction s1 as [|ch s1 IH]; intros cur; [reflexivity|].
  change (String.append (String ch s1) (String DOT s2))
    with (String ch (String.append s1 (String DOT s2))).
  cbn [split_on_dot_aux].
  destruct (Ascii.eqb ch (Ascii.ascii_of_nat 46)); rewrite IH; reflexivity.
Qed.

Lemma split_on_dot_aux_nonempty s cur : split_on_dot_aux s cur <> [].
Proof.
  revert cur. induction s as [|ch s IH]; intros cur; cbn [split_on_dot_aux]; [done|].
  destruct (Ascii.eqb ch _); [done|apply IH].
Qed.

Lemma walk_path_app j p1 p2 :
  p2 <> [] -> walk_path j (p1 ++ p2) = walk_path (walk_path j p1) p2.
Proof.
  intros Hp2. assert (Hnull : walk_path JNull p2 = JNull) by (destruct p2; done).
  revert j. induction p1 as [|part p1 IH]; intros j; [done|].
  cbn [app walk_path]. destruct j; try by rewrite Hnull.
  destruct (assoc_get part kvs); [apply IH|by rewrite Hnull].
Qed.

(** X6: [_get_nested_payload_value] on a path [a.b] walks the components of
    [b] from the value found at [a]. *)
Theorem get_nested_payload_value_dotted (d : dict) (a b : string) :
  a <> EmptyString ->
  _get_nested_payload_value (Some d) (Some (String.append a (String DOT b))) =
  walk_path (_get_nested_payload_value (Some d) (Some a)) (split_on_dot b).
Proof.
  intros Ha. assert (Hnull : walk_path JNull (split_on_dot b) = JNull).
  { unfold split_on_dot. pose proof (split_on_dot_aux_nonempty b EmptyString).
    destruct (split_on_dot_aux b EmptyString); done. }
  destruct d as [|kv d]; [cbn [_get_nested_payload_value]; by rewrite Hnull|].
  destruct a as [|ch a]; [done|].
  cbn [_get_nested_payload_value].
  replace (String.eqb (String.append (String ch a) (String DOT b)) "") with false by reflexivity.
  replace (String.eqb (String ch a) "") with false by reflexivity.
  unfold split_on_dot. rewrite split_on_dot_aux_app, walk_path_app; [done|].
  apply split_on_dot_aux_nonempty.
Qed.

(** Witness of X6: ["a.b"] in [{"a": {"b": 1}}]. *)
Lemma get_nested_payload_value_dotted_witness :
  "a" <> EmptyString /\
  _get_nested_payload_value (Some [("a", JObj [("b", JInt 1)])])
    (Some (String.append "a" (String DOT "b"))) =
  walk_path (_get_nested_payload_value (Some [("a", JObj [("b", JInt 1)])]) (Some "a"))
    (split_on_dot "b").
Proof.
  assert (H : "a" <> EmptyString) by discriminate.
  split; [exact H|]. exact (get_nested_payload_value_dotted _ "a" "b" H).
Defined.

(** The tables the alert engine does not write. *)
Definition alert_frame (db db' : DB) : Prop :=
  db_crawlers db' = db_crawlers db /\ db_heartbeats db' = db_heartbeats db /\
  db_runs db' = db_runs db.

Definition keeps_frame {A} (m : M A) : Prop :=
  forall db a db', m db = Ok (a, db') -> alert_frame db db'.

Lemma keeps_frame_ret {A} (a : A) : keeps_frame (mret a).
Proof. intros db a' db' [= _ <-]. repeat split. Qed.

Lemma keeps_frame_gets {A} (f : DB -> A) : keeps_frame (gets f).
Proof. intros db a' db' [= _ <-]. repeat split. Qed.

Lemma keeps_frame_lift {A} (o : outcome A) : keeps_frame (lift o).
Proof. intros db a' db'. unfold lift. destruct o; [intros [= _ <-]; repeat split|done]. Qed.

Lemma keeps_frame_bind {A B} (m : M A) (k : A -> M B) :
  keeps_frame m -> (forall a, keeps_frame (k a)) -> keeps_frame (mbind m k).
Proof.
  intros Hm Hk db b db''. unfold mbind.
  destruct (m db) as [[a db']|e] eqn:E; [|done].
  intros Hk'. destruct (Hm _ _ _ E) as (H1 & H2 & H3).
  destruct (Hk _ _ _ _ Hk') as (H1' & H2' & H3').
  repeat split; congruence.
Qed.

Lemma keeps_frame_states f : keeps_frame (modify (db_map_states f)).
Proof. intros db a db' [= _ <-]. repeat split. Qed.
Lemma keeps_frame_events f : keeps_frame (modify (db_map_events f)).
Proof. intros db a db' [= _ <-]. repeat split. Qed.
Lemma keeps_frame_rules f : keeps_frame (modify (db_map_rules f)).
Proof. intros db a db' [= _ <-]. repeat split. Qed.

Lemma evaluate_alert_rules_frame cmp disp c previous_status now_ :
  keeps_frame (_evaluate_alert_rules cmp disp c previous_status now_).
Proof.
  unfold _evaluate_alert_rules.
  apply keeps_frame_bind; [apply keeps_frame_gets|intros rules].
  induction rules as [|rule rules IH]; cbn [for_each]; [apply keeps_frame_ret|].
  apply keeps_frame_bind; [|intros _; exact IH].
  unfold evaluate_one_rule.
  destruct (negb _); [apply keeps_frame_ret|].
  apply keeps_frame_bind.
  { unfold _get_or_create_alert_state. apply keeps_frame_bind; [apply keeps_frame_gets|].
    intros [s|]; [apply keeps_frame_ret|].
    apply keeps_frame_bind; [apply keeps_frame_states|intros _; apply keeps_frame_ret]. }
  intros st. apply keeps_frame_bind.
  { destruct (String.eqb _ _); [apply keeps_frame_ret|].
    destruct (String.eqb _ _); [apply keeps_frame_lift|apply keeps_frame_ret]. }
  intros [triggered st'].
  destruct (negb triggered || _); [apply keeps_frame_states|].
  apply keeps_frame_bind; [apply keeps_frame_events|intros _].
  apply keeps_frame_bind; [apply keeps_frame_states|intros _].
  apply keeps_frame_rules.
Qed.

Lemma compute_status_now now_ : _compute_status now_ (Some now_) = "online".
Proof.
  unfold _compute_status. rewrite Z.sub_diag.
  destruct (Z.leb_spec 0 (HEARTBEAT_ONLINE_SECONDS * US_PER_SECOND)); [done|].
  unfold HEARTBEAT_ONLINE_SECONDS, US_PER_SECOND in *. lia.
Qed.

Lemma update_crawler_status_now c t source_ip payload_status :
  cr_id (_update_crawler_status c t source_ip payload_status t) = cr_id c /\
  cr_last_heartbeat (_update_crawler_status c t source_ip payload_status t) = Some t /\
  cr_status (_update_crawler_status c t source_ip payload_status t) =
    py_or_str payload_status "online" /\
  cr_status_changed_at (_update_crawler_status c t source_ip payload_status t) =
    (if String.eqb (py_or_str payload_status "online") (cr_status c)
     then cr_status_changed_at c else Some t).
Proof.
  unfold _update_crawler_status.
  destruct (truthy_str source_ip); cbn [cr_last_heartbeat cr_set_last_source_ip cr_set_last_heartbeat cr_status];
    rewrite compute_status_now;
    destruct (String.eqb_spec (py_or_str payload_status "online") (cr_status c)) as [E|E];
    cbn [negb]; repeat split; try done;
    (rewrite E; by rewrite String.eqb_refl) || (by apply String.eqb_neq in E; rewrite E).
Qed.

(** X7: a successful [heartbeat] returns the request time and the reported
    status (default "online"), updates only the crawler's own row (status,
    last heartbeat, and change time when the status changes) and appends
    one heartbeat row. *)
Theorem heartbeat_success_effects cmp disp (crawler_id : positive)
    (payload : option HeartbeatPayload) (api_key : APIKey) (client_ip : option string)
    (t : Z) (db db' : DB) (ts : Z) (st : string) :
  heartbeat cmp disp crawler_id payload api_key client_ip t db = (db', Ok (ts, st)) ->
  ts = t /\
  st = py_or_str (match payload with Some p => hp_status p | None => None end) "online" /\
  exists c0 c,
    db_crawlers db !! crawler_id = Some c0 /\ cr_user_id c0 = ak_user_id api_key /\
    db_crawlers db' = <[crawler_id := c]> (db_crawlers db) /\
    cr_status c = st /\ cr_last_heartbeat c = Some t /\
    cr_status_changed_at c =
      (if String.eqb st (cr_status c0) then cr_status_changed_at c0 else Some t) /\
    db_heartbeats db' = db_heartbeats db ++
      [mkHeartbeatRow (cr_id c0) (ak_id api_key) st
         (dict_or_empty (match payload with Some p => hp_payload p | None => None end))
         client_ip (match payload with Some p => hp_device_name p | None => None end) t].
Proof.
  unfold heartbeat, run_request, heartbeat_body.
  unfold mbind at 1, gets at 1. cbn beta iota.
  unfold mbind at 1, lift at 1, find_user_crawler.
  destruct (db_crawlers db !! crawler_id) as [c0|] eqn:Ec0; [|done].
  destruct (Pos.eqb_spec (cr_user_id c0) (ak_user_id api_key)) as [Hu|]; [|done].
  cbn beta iota.
  set (hint := match payload with Some p => hp_status p | None => None end).
  set (c1 := _update_crawler_status c0 t client_ip hint t).
  set (pl := dict_or_empty (match payload with Some p => hp_payload p | None => None end)).
  set (dev := match payload with Some p => hp_device_name p | None => None end).
  set (c3 := match truthy_str dev with
             | Some d => cr_set_last_device_name (cr_set_heartbeat_payload c1 pl) d
             | None => cr_set_heartbeat_payload c1 pl end).
  assert (Hc3 : cr_id c3 = cr_id c1 /\ cr_status c3 = cr_status c1 /\
                cr_last_heartbeat c3 = cr_last_heartbeat c1 /\
                cr_status_changed_at c3 = cr_status_changed_at c1 /\
                cr_heartbeat_payload c3 = Some pl)
    by (unfold c3; destruct (truthy_str dev); repeat split).
  destruct (update_crawler_status_now c0 t client_ip hint) as (Hi1 & Hl1 & Hs1 & Hch1).
  fold c1 in Hi1, Hl1, Hs1, Hch1.
  destruct Hc3 as (Hi3 & Hs3 & Hl3 & Hch3 & Hp3).
  cbn [mbind modify gets mret _record_heartbeat].
  destruct (latest_running_run _ _) as [r|]; unfold mbind, modify, mret;
  destruct (_evaluate_alert_rules cmp disp c3 (Some (cr_status c0)) t _) as [[u db3]|e] eqn:Ea;
    try done;
  apply evaluate_alert_rules_frame in Ea as (Hc & Hh & _);
  intros [= <- <- <-];
  cbn [db_map_runs db_map_heartbeats db_map_crawlers db_crawlers db_heartbeats] in Hc, Hh;
  (split; [done|]); (split; [congruence|]);
  exists c0, c3; rewrite Hc, Hh, Hi3, Hi1, Hs3, Hs1, Hl3, Hl1, Hch3, Hch1, Hp3;
  repeat split; done.
Qed.

(** Witness of X7: an offline heartbeat to the crawler of the scenario. *)
Lemma heartbeat_success_effects_witness :
  exists db' ts st,
    heartbeat Scenario.cmp0 Scenario.send_ok 1 Scenario.offline_heartbeat Scenario.api_key None
      Scenario.t0 Scenario.db_offline_rule = (db', Ok (ts, st)) /\
    ts = Scenario.t0 /\ st = "offline" /\
    length (db_heartbeats db') = S (length (db_heartbeats Scenario.db_offline_rule)).
Proof.
  destruct (heartbeat Scenario.cmp0 Scenario.send_ok 1 Scenario.offline_heartbeat Scenario.api_key
              None Scenario.t0 Scenario.db_offline_rule) as [db' [[ts st]|e]] eqn:E;
    [|vm_compute in E; discriminate].
  exists db', ts, st.
  destruct (heartbeat_success_effects Scenario.cmp0 Scenario.send_ok 1 Scenario.offline_heartbeat
              Scenario.api_key None Scenario.t0 Scenario.db_offline_rule db' ts st E)
    as (Hts & Hst & c0 & c & _ & _ & _ & _ & _ & _ & Hh).
  split; [reflexivity|]. split; [exact Hts|]. split; [exact Hst|].
  rewrite Hh, length_app. simpl. lia.
Defined.

Lemma dispatch_channels_elem send_email send_webhook (channels : list dict)
    (results : list ChannelResult) ch :
  dispatch_channels send_email send_webhook channels = Ok results -> ch ∈ channels ->
  exists r, dispatch_channel send_email send_webhook ch = Ok r /\ r ∈ results.
Proof.
  revert results. induction channels as [|c cs IH]; intros results Hd Hin;
    [by apply not_elem_of_nil in Hin|].
  cbn [dispatch_channels] in Hd.
  destruct (dispatch_channel send_email send_webhook c) as [r|e] eqn:Ec; [|discriminate].
  cbn [obind] in Hd.
  destruct (dispatch_channels send_email send_webhook cs) as [rs|e] eqn:Ecs; [|discriminate].
  cbn [obind] in Hd. injection Hd as <-.
  apply elem_of_cons in Hin as [->|Hin].
  - exists r. split; [done|]. apply elem_of_cons. by left.
  - destruct (IH rs eq_refl Hin) as (r' & Hr' & Hm). exists r'.
    split; [done|]. apply elem_of_cons. by right.
Qed.

Lemma dispatch_channels_disabled send_email send_webhook (channels : list dict) :
  Forall (fun ch => py_truthy (dict_get "enabled" ch (JBool true)) = false) channels ->
  exists results, dispatch_channels send_email send_webhook channels = Ok results /\
    Forall (fun r => chr_status r = "skipped") results.
Proof.
  induction 1 as [|c cs Hc Hcs IH]; [by exists []|].
  destruct IH as (rs & Hrs & Hall).
  cbn [dispatch_channels]. unfold dispatch_channel at 1. rewrite Hc. cbn [negb obind].
  rewrite Hrs. cbn [obind]. eexists. split; [reflexivity|]. by constructor.
Qed.

(** X8: when [_dispatch_alert_event] returns normally and an enabled
    channel has no target, it reports "failed", with "missing target" among
    the joined error details. *)
Theorem dispatch_missing_target_fails send_email send_webhook (channels : list dict) (ch : dict)
    (r : DispatchResult) :
  ch ∈ channels ->
  py_truthy (dict_get "enabled" ch (JBool true)) = true ->
  py_truthy (dict_get "target" ch JNull) = false ->
  _dispatch_alert_event send_email send_webhook (Some channels) = Ok r ->
  dr_status r = "failed" /\
  exists details, dr_error r = Some (join_str "; " details) /\ "missing target" ∈ details.
Proof.
  intros Hin Hen Htg Hd.
  unfold _dispatch_alert_event in Hd.
  destruct (dispatch_channels send_email send_webhook channels) as [results1|e] eqn:Ed;
    [|discriminate].
  cbn [obind] in Hd.
  destruct (dispatch_channels_elem _ _ _ _ ch Ed Hin) as (c & Hc & Hcm).
  assert (Hres : c = mkChannelResult (dict_get "type" ch JNull) None "failed"
                       (Some "missing target")).
  { unfold dispatch_channel in Hc. rewrite Hen, Htg in Hc. cbn [negb] in Hc.
    by injection Hc as <-. }
  subst c.
  set (results0 := match channels with
                   | [] => [mkChannelResult (JStr "none") None "skipped" (Some "no channels")]
                   | _ => [] end) in Hd.
  set (results := results0 ++ results1) in Hd.
  assert (Hr : mkChannelResult (dict_get "type" ch JNull) None "failed" (Some "missing target")
                 ∈ results).
  { unfold results. apply elem_of_app. by right. }
  assert (Hdet : "missing target" ∈ failed_details results).
  { unfold failed_details. apply list_elem_of_omap. eexists. split; [exact Hr|]. reflexivity. }
  assert (Hf : existsb (fun r => String.eqb (chr_status r) "failed") results = true).
  { apply existsb_exists. eexists. split; [apply list_elem_of_In; exact Hr|]. reflexivity. }
  rewrite Hf in Hd. injection Hd as <-. cbn [dr_status dr_error].
  split; [done|]. destruct (failed_details results) as [|d ds] eqn:E.
  - by apply not_elem_of_nil in Hdet.
  - by exists (d :: ds).
Qed.

(** Witness of X8: one enabled e-mail channel without a target. *)
Definition x_send (target : json) : outcome ChannelResult :=
  Ok (mkChannelResult (JStr "email") (Some target) "sent" None).

Lemma dispatch_missing_target_fails_witness :
  exists r, _dispatch_alert_event x_send x_send (Some [[("type", JStr "email")]]) = Ok r /\
    dr_status r = "failed".
Proof.
  assert (Hin : [("type", JStr "email")] ∈ [[("type", JStr "email")]])
    by apply list_elem_of_singleton, eq_refl.
  eexists. split; [reflexivity|].
  refine (proj1 (dispatch_missing_target_fails x_send x_send [[("type", JStr "email")]]
              [("type", JStr "email")] _ Hin eq_refl eq_refl eq_refl)).
Defined.

(** X9: [_dispatch_alert_event] returns normally and reports "skipped"
    without error when no channel is enabled, also for a missing channel
    list. *)
Theorem dispatch_all_disabled_skipped send_email send_webhook (channels : option (list dict)) :
  Forall (fun ch => py_truthy (dict_get "enabled" ch (JBool true)) = false)
    (match channels with Some l => l | None => [] end) ->
  exists r, _dispatch_alert_event send_email send_webhook channels = Ok r /\
    dr_status r = "skipped" /\ dr_error r = None.
Proof.
  intros Hall. unfold _dispatch_alert_event.
  set (l := match channels with Some l => l | None => [] end) in *.
  destruct (dispatch_channels_disabled send_email send_webhook l Hall) as (rs & Hrs & Hsk).
  rewrite Hrs. cbn [obind].
  assert (Hm : Forall (fun r => chr_status r = "skipped")
                 ((match l with [] => [mkChannelResult (JStr "none") None "skipped" (Some "no channels")]
                   | _ => [] end) ++ rs)).
  { apply Forall_app. split; [destruct l; repeat constructor|exact Hsk]. }
  generalize dependent ((match l with [] => [mkChannelResult (JStr "none") None "skipped" (Some "no channels")]
                   | _ => [] end) ++ rs).
  intros results Hm.
  assert (Hx : forall s, s <> "skipped" ->
            existsb (fun r => String.eqb (chr_status r) s) results = false).
  { intros s Hs. induction Hm as [|r rs' Hr Hrs' IH]; [done|]. cbn [existsb].
    rewrite Hr, IH. destruct (String.eqb_spec "skipped" s); [congruence|done]. }
  rewrite !Hx by done. eexists. split; [reflexivity|]. done.
Qed.

(** Witness of X9: one disabled webhook channel. *)
Lemma dispatch_all_disabled_skipped_witness :
  Forall (fun ch => py_truthy (dict_get "enabled" ch (JBool true)) = false)
    [[("type", JStr "webhook"); ("enabled", JBool false)]] /\
  exists r, _dispatch_alert_event x_send x_send
               (Some [[("type", JStr "webhook"); ("enabled", JBool false)]]) = Ok r /\
    dr_status r = "skipped".
Proof.
  assert (H : Forall (fun ch => py_truthy (dict_get "enabled" ch (JBool true)) = false)
                [[("type", JStr "webhook"); ("enabled", JBool false)]])
    by (constructor; [reflexivity|constructor]).
  split; [exact H|].
  destruct (dispatch_all_disabled_skipped x_send x_send
              (Some [[("type", JStr "webhook"); ("enabled", JBool false)]]) H) as (r & Hr & Hs & _).
  exists r. split; [exact Hr|exact Hs].
Defined.

Lemma dispatch_channels_raise send_email send_webhook (channels : list dict) ch e :
  ch ∈ channels -> dispatch_channel send_email send_webhook ch = Raise e ->
  exists e', dispatch_channels send_email send_webhook channels = Raise e'.
Proof.
  induction channels as [|c cs IH]; intros Hin He; [by apply not_elem_of_nil in Hin|].
  cbn [dispatch_channels].
  destruct (dispatch_channel send_email send_webhook c) as [r|e0] eqn:Ec;
    [|by exists e0].
  cbn [obind]. apply elem_of_cons in Hin as [->|Hin]; [congruence|].
  destruct (IH Hin He) as [e' ->]. by exists e'.
Qed.

(** X10: when the e-mail send of an enabled channel with a target raises
    (its headers are built outside its [try]), [_dispatch_alert_event]
    raises too: the loop is left and no channel result is written. *)
Theorem dispatch_send_raise_propagates send_email send_webhook (channels : list dict)
    (ch : dict) (e : exn) :
  ch ∈ channels ->
  py_truthy (dict_get "enabled" ch (JBool true)) = true ->
  py_truthy (dict_get "target" ch JNull) = true ->
  dict_get "type" ch JNull = JStr "email" ->
  send_email (dict_get "target" ch JNull) = Raise e ->
  exists e', _dispatch_alert_event send_email send_webhook (Some channels) = Raise e'.
Proof.
  intros Hin Hen Htg Hty Hs.
  destruct (dispatch_channels_raise send_email send_webhook channels ch e Hin) as [e' He'].
  { unfold dispatch_channel. rewrite Hen, Htg, Hty. exact Hs. }
  exists e'. unfold _dispatch_alert_event. rewrite He'. reflexivity.
Qed.

(** Witness of X10: an e-mail channel whose send raises [ValueError], as
    [message["To"] = target] does for a target holding a line break. *)
Definition x_send_raise (target : json) : outcome ChannelResult := Raise ValueError.

Lemma dispatch_send_raise_propagates_witness :
  exists e', _dispatch_alert_event x_send_raise x_send
               (Some [[("type", JStr "email"); ("target", JStr "ops@example.com")]]) = Raise e'.
Proof.
  apply (dispatch_send_raise_propagates x_send_raise x_send
           [[("type", JStr "email"); ("target", JStr "ops@example.com")]]
           [("type", JStr "email"); ("target", JStr "ops@example.com")] ValueError).
  - apply list_elem_of_singleton. reflexivity.
  - reflexivity.
  - reflexivity.
  - reflexivity.
  - reflexivity.
Defined.

Lemma lstrip_all_space s : string_forall is_py_space s = true -> lstrip s = EmptyString.
Proof.
  induction s as [|ch s IH]; [done|]. cbn [string_forall lstrip].
  intros H. apply andb_true_iff in H as [H1 H2]. rewrite H1. by apply IH.
Qed.

Lemma py_strip_all_space s : string_forall is_py_space s = true -> py_strip s = EmptyString.
Proof. intros H. unfold py_strip. rewrite (lstrip_all_space s H). reflexivity. Qed.

Lemma split_on_char_blank s :
  string_forall (fun ch => Ascii.eqb ch COMMA || is_py_space ch) s = true ->
  Forall (fun p => string_forall is_py_space p = true) (split_on_char COMMA s).
Proof.
  induction s as [|ch s IH]; [repeat constructor|]. cbn [string_forall split_on_char].
  intros H. apply andb_true_iff in H as [H1 H2]. specialize (IH H2).
  destruct (Ascii.eqb ch COMMA) eqn:Ec; [by constructor|].
  cbn [orb] in H1.
  destruct (split_on_char COMMA s) as [|w ws]; [repeat constructor; cbn; by rewrite H1|].
  inversion IH as [|? ? Hw Hws]; subst. constructor; [|done].
  cbn [string_forall]. by rewrite H1, Hw.
Qed.

Lemma allowed_ip_set_blank s :
  string_forall (fun ch => Ascii.eqb ch COMMA || is_py_space ch) s = true ->
  allowed_ip_set s = [].
Proof.
  intros H. unfold allowed_ip_set. apply split_on_char_blank in H.
  induction H as [|p ps Hp Hps IH]; [done|].
  cbn [map]. rewrite filter_cons, py_strip_all_space by done.
  rewrite decide_False by congruence. exact IH.
Qed.

(** X11: [_require_api_key] accepts a matching active key from any client
    when its [allowed_ips] holds only commas and blanks, and records the
    use on that key. *)
Theorem require_api_key_blank_whitelist (keys : list APIKeyRow) (x_api_key : string)
    (client_ip : option string) (now_ : Z) (key : APIKeyRow) :
  x_api_key <> EmptyString ->
  List.find (fun k => String.eqb (akr_key k) x_api_key && akr_active k) keys = Some key ->
  (forall s, akr_allowed_ips key = Some s ->
     string_forall (fun ch => Ascii.eqb ch COMMA || is_py_space ch) s = true) ->
  _require_api_key keys (Some x_api_key) client_ip now_ =
    Ok (akr_touch key now_ client_ip,
        map (fun k => if Pos.eqb (akr_id k) (akr_id key) then akr_touch key now_ client_ip else k)
          keys).
Proof.
  intros Hx Hfind Hblank. unfold _require_api_key. cbn [truthy_str].
  destruct (String.eqb_spec x_api_key ""); [done|]. rewrite Hfind.
  destruct (akr_allowed_ips key) as [s|] eqn:Ea; cbn [truthy_str]; [|done].
  destruct (String.eqb s ""); [done|].
  by rewrite allowed_ip_set_blank by (apply Hblank; done).
Qed.

(** Data of the witnesses of X11 and X12. *)
Definition x_key (allowed : option string) : APIKeyRow :=
  mkAPIKeyRow 1 1 "k1" true allowed None None.

(** Witness of X11: the whitelist [" , "] lets any client in. *)
Lemma require_api_key_blank_whitelist_witness :
  "k1" <> EmptyString /\
  List.find (fun k => String.eqb (akr_key k) "k1" && akr_active k) [x_key (Some " , ")]
    = Some (x_key (Some " , ")) /\
  exists r, _require_api_key [x_key (Some " , ")] (Some "k1") (Some "10.0.0.9") 7 = Ok r.
Proof.
  assert (H1 : "k1" <> EmptyString) by discriminate.
  assert (H2 : List.find (fun k => String.eqb (akr_key k) "k1" && akr_active k) [x_key (Some " , ")]
                 = Some (x_key (Some " , "))) by reflexivity.
  split; [exact H1|]. split; [exact H2|].
  eexists. apply (require_api_key_blank_whitelist _ "k1" (Some "10.0.0.9") 7 _ H1 H2).
  intros s [= <-]. vm_compute. reflexivity.
Defined.

(** X12: a key accepted by [_require_api_key] is the active key whose value
    was sent, now stamped with the time and client IP; with a non-empty
    whitelist, the client IP is present and listed. *)
Theorem require_api_key_success (keys keys' : list APIKeyRow) (x_api_key client_ip : option string)
    (now_ : Z) (key : APIKeyRow) :
  _require_api_key keys x_api_key client_ip now_ = Ok (key, keys') ->
  x_api_key = Some (akr_key key) /\ akr_key key <> EmptyString /\ akr_active key = true /\
  akr_last_used_at key = Some now_ /\ akr_last_used_ip key = client_ip /\
  (exists k0, k0 ∈ keys /\ key = akr_touch k0 now_ client_ip) /\
  (forall s, akr_allowed_ips key = Some s -> allowed_ip_set s <> [] ->
     exists ip, client_ip = Some ip /\ ip ∈ allowed_ip_set s).
Proof.
  unfold _require_api_key.
  destruct x_api_key as [x|]; cbn [truthy_str]; [|done].
  destruct (String.eqb_spec x "") as [|Hx]; [done|].
  destruct (List.find _ keys) as [k0|] eqn:Hfind; [|done].
  apply List.find_some in Hfind as [Hin Hk].
  apply andb_true_iff in Hk as [Hkey Hact]. apply String.eqb_eq in Hkey.
  destruct (akr_allowed_ips k0) as [s|] eqn:Ea.
  - cbn [truthy_str]. destruct (String.eqb_spec s "") as [->|Hs].
    + intros [= <- <-]. cbn. subst x.
      repeat split; try done.
      * exists k0. split; [by apply list_elem_of_In|done].
      * rewrite Ea. intros s' [= <-] Hne. by exfalso; apply Hne.
    + destruct (allowed_ip_set s) as [|a l] eqn:El.
      * intros [= <- <-]. cbn. subst x. repeat split; try done.
        -- exists k0. split; [by apply list_elem_of_In|done].
        -- rewrite Ea. intros s' [= <-]. by rewrite El.
      * destruct client_ip as [ip|]; [|done].
        case_bool_decide as Hip; [|done]. cbn [negb].
        intros [= <- <-]. cbn. subst x. repeat split; try done.
        -- exists k0. split; [by apply list_elem_of_In|done].
        -- rewrite Ea. intros s' [= <-] _. exists ip. split; [done|].
           by apply bool_decide_eq_true_1 in Hip || (rewrite El; exact Hip).
  - intros [= <- <-]. cbn. subst x. repeat split; try done.
    + exists k0. split; [by apply list_elem_of_In|done].
    + by rewrite Ea.
Qed.

(** Witness of X12: a whitelisted client. *)
Lemma require_api_key_success_witness :
  exists key keys',
    _require_api_key [x_key (Some "10.0.0.9, 10.0.0.10")] (Some "k1") (Some "10.0.0.9") 7
      = Ok (key, keys') /\
    akr_last_used_at key = Some 7.
Proof.
  destruct (_require_api_key [x_key (Some "10.0.0.9, 10.0.0.10")] (Some "k1") (Some "10.0.0.9") 7)
    as [[key keys']|e] eqn:E; [|vm_compute in E; discriminate].
  exists key, keys'. split; [reflexivity|].
  exact (proj1 (proj2 (proj2 (proj2 (require_api_key_success _ _ _ _ _ _ E))))).
Defined.
Lemma stride_aux_length {A} fuel step (l : list A) :
  (1 <= step)%nat ->
  (length (stride_aux fuel step l) * step <= length l + step - 1)%nat.
Proof.
  intros Hs. revert l. induction fuel as [|fuel IH]; intros l; cbn [stride_aux]; [cbn; lia|].
  destruct l as [|x l']; cbn [length]; [cbn; lia|].
  specialize (IH (drop step (x :: l'))). rewrite length_drop in IH. cbn [length] in IH.
  destruct (Nat.le_gt_cases step (S (length l'))).
  - rewrite Nat.mul_succ_l. lia.
  - assert (drop step (x :: l') = []) as ->.
    { apply length_zero_iff_nil. rewrite length_drop. cbn [length]. lia. }
    destruct fuel; cbn; lia.
Qed.

Lemma stride_aux_elem {A} fuel step (l : list A) x :
  x ∈ stride_aux fuel step l -> x ∈ l.
Proof.
  revert l. induction fuel as [|fuel IH]; intros l; cbn [stride_aux];
    [by intros ?%not_elem_of_nil|].
  destruct l as [|y l']; [by intros ?%not_elem_of_nil|].
  intros [->|Hx]%elem_of_cons; [left|].
  apply IH in Hx. eapply elem_of_sublist; [exact Hx|apply sublist_drop].
Qed.

Lemma downsample_spec (max_points : nat) (records : list HeartbeatRecord) :
  (1 <= max_points)%nat ->
  (length (downsample max_points records) <= max_points + 1)%nat /\
  (forall x, x ∈ downsample max_points records -> x ∈ records) /\
  head (downsample max_points records) = head records /\
  fst <$> last (downsample max_points records) = fst <$> last records.
Proof.
  intros Hm. unfold downsample.
  destruct (Nat.ltb_spec max_points (length records)) as [Ht|Ht]; [|repeat split; auto with lia].
  set (t := length records) in *.
  set (step := Nat.max 1 ((t + max_points - 1) / max_points)).
  assert (Hstep : (1 <= step /\ t <= step * max_points)%nat).
  { split; [lia|].
    pose proof (Nat.div_mod_eq (t + max_points - 1) max_points) as Hd.
    pose proof (Nat.mod_upper_bound (t + max_points - 1) max_points ltac:(lia)) as Hu.
    set (q := ((t + max_points - 1) / max_points)%nat) in *.
    assert (q <= step)%nat by lia. nia. }
  destruct records as [|x l] eqn:Er; [cbn in Ht; lia|].
  assert (Hlen : (length (stride step (x :: l)) <= max_points)%nat).
  { pose proof (stride_aux_length (length (x :: l)) step (x :: l) (proj1 Hstep)). fold t in H.
    unfold stride. fold t. nia. }
  assert (Hsub : forall y, y ∈ stride step (x :: l) -> y ∈ x :: l) by (intros y; apply stride_aux_elem).
  assert (Hhead : stride step (x :: l) = x :: stride_aux (length l) step (drop step (x :: l)))
    by reflexivity.
  destruct (last (stride step (x :: l))) as [s|] eqn:Es;
    [|rewrite Hhead in Es; by rewrite last_cons in Es; destruct (last _)].
  destruct (last (x :: l)) as [r|] eqn:Elast; [|by rewrite last_cons in Elast; destruct (last l)].
  assert (Hr : r ∈ x :: l) by (apply list_elem_of_In; apply last_Some_elem_of in Elast; by apply list_elem_of_In).
  destruct (Pos.eqb_spec (fst s) (fst r)) as [Eq|Ne].
  - split; [lia|]. split; [exact Hsub|]. split; [by rewrite Hhead|by rewrite Es; cbn; rewrite Eq].
  - split; [|split; [|split]].
    + rewrite length_app. cbn [length]. lia.
    + intros y [Hy|Hy%list_elem_of_singleton]%elem_of_app; [by apply Hsub|by subst].
    + by rewrite Hhead.
    + by rewrite last_snoc.
Qed.

Lemma heartbeat_query_elem rows crawler_id limit_ start end_ r :
  r ∈ heartbeat_query rows crawler_id limit_ start end_ ->
  r ∈ rows /\ hb_crawler_id (snd r) = crawler_id /\
  in_window (heartbeat_window start end_) (hb_created_at (snd r)) = true.
Proof.
  unfold heartbeat_query, limit.
  intros Hr. apply list_elem_of_In, in_rev, list_elem_of_In in Hr.
  apply elem_of_take_l, elem_of_sort_by, list_elem_of_filter in Hr.
  destruct Hr as [Hp Hr]. apply andb_true_iff in Hp as [Hc Hw].
  apply Pos.eqb_eq in Hc. auto.
Qed.

Lemma in_window_bounds start end_ t :
  in_window (heartbeat_window start end_) t = true ->
  match start, end_ with
  | Some s, Some e => Z.min s e <= t <= Z.max s e
  | Some s, None => s <= t
  | None, Some e => t <= e
  | None, None => True
  end.
Proof.
  unfold in_window, heartbeat_window.
  destruct start as [s|], end_ as [e|]; try destruct (Z.ltb_spec e s); cbn [fst snd];
    rewrite ?andb_true_iff, ?Z.leb_le; intros; try lia; done.
Qed.

(** X13: [my_crawler_heartbeats] returns at most [max_points]+1 rows, all of
    the crawler and inside the time window, and keeps the first and the
    last row of the queried history. *)
Theorem my_crawler_heartbeats_sampled (u : User) (crawlers : gmap positive Crawler)
    (rows : list HeartbeatRecord) (crawler_id : positive) (limit_ : nat)
    (start end_ : option Z) (max_points : nat) (res : list HeartbeatRecord) :
  (50 <= max_points)%nat ->
  my_crawler_heartbeats u crawlers rows crawler_id limit_ start end_ max_points = Ok res ->
  (length res <= max_points + 1)%nat /\
  Forall (fun r =>
    r ∈ rows /\ hb_crawler_id (snd r) = crawler_id /\
    match start, end_ with
    | Some s, Some e => Z.min s e <= hb_created_at (snd r) <= Z.max s e
    | Some s, None => s <= hb_created_at (snd r)
    | None, Some e => hb_created_at (snd r) <= e
    | None, None => True
    end) res /\
  head res = head (heartbeat_query rows crawler_id limit_ start end_) /\
  fst <$> last res = fst <$> last (heartbeat_query rows crawler_id limit_ start end_).
Proof.
  intros Hm. unfold my_crawler_heartbeats.
  destruct (_ensure_crawler_feature u); [|done]. cbn [obind].
  destruct (find_user_crawler crawlers (user_id u) crawler_id); [|done]. cbn [obind].
  intros [= <-].
  destruct (downsample_spec max_points (heartbeat_query rows crawler_id limit_ start end_))
    as (Hl & Hsub & Hh & Hlast); [lia|].
  split; [done|]. split; [|done].
  apply Forall_forall. intros r Hr. apply Hsub, heartbeat_query_elem in Hr.
  destruct Hr as (Hin & Hc & Hw). split; [done|]. split; [done|].
  by apply in_window_bounds.
Qed.

(** Data of the witness of X13: 120 heartbeats of crawler [1], one per
    second, and one of crawler [2]. *)
Definition x_heartbeats : list HeartbeatRecord :=
  (9%positive, mkHeartbeatRow 2 1 "online" [] None None 5) ::
  map (fun n => (Pos.of_nat (10 + n), mkHeartbeatRow 1 1 "online" [] None None (Z.of_nat n)))
    (seq 0 120).

(** Witness of X13: at most 51 of the heartbeats between [10] and [100]. *)
Lemma my_crawler_heartbeats_sampled_witness :
  (50 <= 50)%nat /\
  exists res,
    my_crawler_heartbeats x_user {[1%positive := x_crawler 1 1]} x_heartbeats 1 500
      (Some 10) (Some 100) 50 = Ok res /\
    (length res <= 51)%nat.
Proof.
  split; [lia|].
  destruct (my_crawler_heartbeats x_user {[1%positive := x_crawler 1 1]} x_heartbeats 1 500
              (Some 10) (Some 100) 50) as [res|e] eqn:E; [|vm_compute in E; discriminate].
  exists res. split; [reflexivity|].
  exact (proj1 (my_crawler_heartbeats_sampled _ _ _ _ _ _ _ _ _ (le_n 50) E)).
Defined.

Lemma last_edge_snoc l x : last_edge (l ++ [x]) = x.
Proof. unfold last_edge. by rewrite last_snoc. Qed.

Lemma sorted_snoc (l : list Z) x :
  Sorted Z.le l -> (l <> [] -> last_edge l <= x) -> Sorted Z.le (l ++ [x]).
Proof.
  induction l as [|y l IH]; intros Hs Hx; cbn [app]; [repeat constructor|].
  apply Sorted_inv in Hs as [Hs Hd]. constructor.
  - apply IH; [done|]. intros Hl. rewrite <- Hx by done.
    unfold last_edge. rewrite last_cons. destruct (last l) eqn:E; [done|].
    by apply last_None in E.
  - destruct l as [|z l]; cbn [app]; constructor.
    + by apply Hx.
    + by inversion Hd.
Qed.

Lemma head_snoc {A} (l : list A) x : l <> [] -> head (l ++ [x]) = head l.
Proof. destruct l; done. Qed.

Lemma edges_loop_spec b step end_ (fuel : nat) :
  0 <= step ->
  forall edges, edges <> [] -> Sorted Z.le edges -> (length edges <= b)%nat ->
  (b <= length edges + fuel)%nat ->
  head (edges_loop fuel b step end_ edges) = head edges /\
  Sorted Z.le (edges_loop fuel b step end_ edges) /\
  (length (edges_loop fuel b step end_ edges) <= b)%nat /\
  (length (edges_loop fuel b step end_ edges) = b \/
   end_ <= last_edge (edges_loop fuel b step end_ edges)) /\
  edges_loop fuel b step end_ edges <> [].
Proof.
  intros Hstep. induction fuel as [|fuel IH]; intros edges Hne Hs Hl Hf; cbn [edges_loop].
  { split_and!; auto. left. lia. }
  destruct (Nat.ltb_spec (length edges) b) as [Hlt|Hge]; [|split_and!; auto; left; lia].
  assert (Hs' : Sorted Z.le (edges ++ [last_edge edges + step])) by (apply sorted_snoc; [done|lia]).
  assert (Hl' : length (edges ++ [last_edge edges + step]) = S (length edges))
    by (rewrite length_app; cbn; lia).
  destruct (Z.leb_spec end_ (last_edge (edges ++ [last_edge edges + step]))) as [He|He].
  - split_and!; auto using head_snoc; [lia|by destruct edges].
  - destruct (IH (edges ++ [last_edge edges + step])) as (Hh & Hs'' & Hl'' & Hr & Hne'');
      [by destruct edges|done|lia|lia|].
    rewrite Hh, head_snoc by done. auto.
Qed.

Lemma pad_edges_spec n (fuel : nat) : forall edges,
  edges <> [] -> Sorted Z.le edges -> (length edges <= n)%nat -> (n <= length edges + fuel)%nat ->
  head (pad_edges fuel n edges) = head edges /\
  Sorted Z.le (pad_edges fuel n edges) /\
  length (pad_edges fuel n edges) = n /\
  last_edge (pad_edges fuel n edges) = last_edge edges.
Proof.
  induction fuel as [|fuel IH]; intros edges Hne Hs Hl Hf; cbn [pad_edges].
  { split_and!; auto. lia. }
  destruct (Nat.ltb_spec (length edges) n) as [Hlt|Hge]; [|split_and!; auto; lia].
  destruct (IH (edges ++ [last_edge edges])) as (Hh & Hs' & Hl' & Hla).
  - by destruct edges.
  - apply sorted_snoc; [done|lia].
  - rewrite length_app. cbn. lia.
  - rewrite length_app. cbn. lia.
  - rewrite Hh, head_snoc, Hla, last_edge_snoc by done. auto.
Qed.

Lemma last_edge_in l : l <> [] -> last_edge l ∈ l.
Proof.
  intros Hne. unfold last_edge. destruct (last l) as [e|] eqn:E.
  - by apply last_Some_elem_of.
  - by apply last_None in E.
Qed.

(** X14: [_make_edges] returns buckets+1 ascending edges, starting at the
    start time and ending at or after the end time. *)
Theorem make_edges_shape (auto_step : Z -> nat -> Z) (start_dt end_dt buckets : Z)
    (granularity : option string) :
  (forall delta b, 0 <= auto_step delta b) ->
  length (_make_edges auto_step start_dt end_dt buckets granularity) =
    S (Z.to_nat (Z.max 2 (py_int_or buckets 24))) /\
  head (_make_edges auto_step start_dt end_dt buckets granularity) = Some start_dt /\
  Sorted Z.le (_make_edges auto_step start_dt end_dt buckets granularity) /\
  exists e, last (_make_edges auto_step start_dt end_dt buckets granularity) = Some e /\
            end_dt <= e.
Proof.
  intros Hauto. unfold _make_edges.
  set (b := Z.to_nat (Z.max 2 (py_int_or buckets 24))).
  assert (Hb : (2 <= b)%nat) by lia.
  set (step := if String.eqb _ "day" then DAY_US else _).
  assert (Hstep : 0 <= step).
  { unfold step, DAY_US, US_PER_SECOND. destruct (String.eqb _ _); [lia|].
    destruct (String.eqb _ _); [lia|apply Hauto]. }
  destruct (edges_loop_spec b step end_dt b Hstep [start_dt]) as (Hh1 & Hs1 & Hl1 & He1 & Hne1);
    [done|repeat constructor|cbn; lia|cbn; lia|].
  set (edges1 := edges_loop b b step end_dt [start_dt]) in *.
  set (edges2 := if last_edge edges1 <? end_dt then edges1 ++ [end_dt] else edges1).
  assert (H2 : edges2 <> [] /\ head edges2 = Some start_dt /\ Sorted Z.le edges2 /\
               (length edges2 <= b + 1)%nat /\ end_dt <= last_edge edges2).
  { unfold edges2. destruct (Z.ltb_spec (last_edge edges1) end_dt) as [Hlt|Hge].
    - split_and!.
      + by destruct edges1.
      + by rewrite head_snoc.
      + apply sorted_snoc; [done|lia].
      + rewrite length_app. cbn. lia.
      + rewrite last_edge_snoc. lia.
    - split_and!; auto; lia. }
  destruct H2 as (Hne2 & Hh2 & Hs2 & Hl2 & He2).
  destruct (pad_edges_spec (b + 1) (b + 1) edges2) as (Hh3 & Hs3 & Hl3 & He3); [done|done|lia|lia|].
  rewrite Hl3, Nat.ltb_irrefl.
  split_and!; [lia|congruence|done|].
  exists (last_edge (pad_edges (b + 1) (b + 1) edges2)). split; [|lia].
  unfold last_edge. destruct (last (pad_edges (b + 1) (b + 1) edges2)) eqn:E; [done|].
  apply last_None in E. rewrite E in Hl3. cbn in Hl3. lia.
Qed.

(** Witness of X14: a constant automatic step of one hour. *)
Lemma make_edges_shape_witness :
  (forall (delta : Z) (b : nat), 0 <= 3600 * US_PER_SECOND) /\
  length (_make_edges (fun _ _ => 3600 * US_PER_SECOND) 0 (24 * 3600 * US_PER_SECOND)
            12 None) = 13%nat.
Proof.
  assert (H : forall (delta : Z) (b : nat), 0 <= 3600 * US_PER_SECOND)
    by (intros; unfold US_PER_SECOND; lia).
  split; [exact H|].
  exact (proj1 (make_edges_shape (fun _ _ => 3600 * US_PER_SECOND) 0 (24 * 3600 * US_PER_SECOND)
                  12 None H)).
Defined.

(** X15: reading the statistics cache after [_stats_cache_set] gives the
    stored data for the same key until the TTL has passed, and leaves other
    keys unchanged. *)
Theorem stats_cache_set_get {K} `{Countable K} {D} (ttl_setting : Z) (cache : gmap K (Z * D))
    (key key' : K) (data : D) (t t' : Z) :
  0 <= ttl_setting ->
  _stats_cache_get ttl_setting (_stats_cache_set ttl_setting cache key data t) key' t' =
  if decide (key' = key) then
    (if STATS_CACHE_TTL ttl_setting * US_PER_SECOND <? t' - t then None else Some data)
  else _stats_cache_get ttl_setting cache key' t'.
Proof.
  intros Hs. unfold _stats_cache_get, _stats_cache_set.
  assert (Hpos : 0 < STATS_CACHE_TTL ttl_setting).
  { unfold STATS_CACHE_TTL, py_int_or. destruct (Z.eqb_spec ttl_setting 0); lia. }
  destruct (Z.leb_spec (STATS_CACHE_TTL ttl_setting) 0); [lia|].
  case_decide as Hk.
  - subst. by rewrite lookup_insert_eq.
  - by rewrite lookup_insert_ne by congruence.
Qed.

(** Witness of X15: the default TTL of 60 seconds, read back 30 seconds later. *)
Lemma stats_cache_set_get_witness :
  0 <= 60 /\
  _stats_cache_get (K := positive) 60 (_stats_cache_set 60 ∅ 1%positive "stats" 0) 1%positive
    (30 * US_PER_SECOND) = Some "stats".
Proof.
  split; [lia|].
  rewrite (stats_cache_set_get 60 ∅ 1%positive 1%positive "stats" 0 (30 * US_PER_SECOND)) by lia.
  vm_compute. reflexivity.
Defined.

(** X16: the statistics cache TTL is 0 exactly for a negative setting; then
    [_stats_cache_set] stores nothing and [_stats_cache_get] finds nothing. *)
Theorem stats_cache_disabled_iff_negative {K} `{Countable K} {D} (ttl_setting : Z) :
  (STATS_CACHE_TTL ttl_setting = 0 <-> ttl_setting < 0) /\
  (ttl_setting < 0 ->
   forall (cache : gmap K (Z * D)) key data t,
     _stats_cache_set ttl_setting cache key data t = cache /\
     _stats_cache_get ttl_setting cache key t = None).
Proof.
  assert (Hiff : STATS_CACHE_TTL ttl_setting = 0 <-> ttl_setting < 0).
  { unfold STATS_CACHE_TTL, py_int_or. destruct (Z.eqb_spec ttl_setting 0); lia. }
  split; [done|]. intros Hneg cache key data t.
  unfold _stats_cache_set, _stats_cache_get. apply Hiff in Hneg. rewrite Hneg. done.
Qed.

Lemma insert_by_length {A} (key : A -> Z) x (l : list A) :
  length (insert_by key x l) = S (length l).
Proof. induction l as [|y l IH]; cbn; [done|]. case_match; cbn; lia. Qed.

Lemma sort_by_length {A} (key : A -> Z) (l : list A) : length (sort_by key l) = length l.
Proof. induction l as [|y l IH]; cbn; [done|]. by rewrite insert_by_length, IH. Qed.

(** X17: a command created by [create_crawler_command] is pending, and the
    crawler's next [fetch_commands] returns it while it has not expired and
    fewer than [COMMAND_FETCH_BATCH] other commands are fetchable. *)
Theorem create_crawler_command_then_fetch (u : User) (crawlers : gmap positive Crawler)
    (commands commands' : gmap positive Command) (crawler_id : positive) (command : string)
    (payload : option dict) (expires_in_seconds : option Z) (new_id : positive)
    (t t' : Z) (c : Command) :
  commands !! new_id = None ->
  create_crawler_command u crawlers commands crawler_id command payload expires_in_seconds
    new_id t = Ok (c, commands') ->
  (forall s, expires_in_seconds = Some s -> s <> 0 -> t' <= t + s * US_PER_SECOND) ->
  (length (filter (fun c0 => fetch_filter crawler_id t' c0 = true)
             (map snd (map_to_list commands))) < COMMAND_FETCH_BATCH)%nat ->
  cmd_status c = "pending" /\ cmd_created_at c = t /\
  exists l, fetch_commands crawlers commands' (user_id u) crawler_id t' = Ok l /\ c ∈ l.
Proof.
  intros Hfresh. unfold create_crawler_command.
  destruct (_ensure_crawler_feature u); [|done]. cbn [obind].
  destruct (find_user_crawler crawlers (user_id u) crawler_id) as [cr|] eqn:Ef; [|done].
  cbn [obind]. intros [= <- <-] Hexp Hlen.
  split; [done|]. split; [done|].
  unfold fetch_commands. rewrite Ef. cbn [obind]. eexists. split; [reflexivity|].
  set (c := mkCommand _ _ _ _ _ _ _ _ _).
  assert (Hfc : fetch_filter crawler_id t' c = true).
  { unfold fetch_filter, c. cbn [cmd_crawler_id cmd_status cmd_expires_at].
    rewrite Pos.eqb_refl. cbn [andb].
    destruct expires_in_seconds as [s|]; [|done].
    destruct (Z.eqb_spec s 0); [done|]. apply Z.leb_le. by apply Hexp. }
  set (L := filter _ (map snd (map_to_list (<[new_id:=c]> commands)))).
  assert (HcL : c ∈ L).
  { unfold L. apply list_elem_of_filter. split; [done|].
    apply list_elem_of_fmap. exists (new_id, c). split; [done|].
    apply elem_of_map_to_list. apply lookup_insert_eq. }
  assert (HlenL : (length L <= COMMAND_FETCH_BATCH)%nat).
  { unfold L. rewrite (map_to_list_insert commands new_id c Hfresh).
    cbn [map snd]. rewrite filter_cons_True by done. cbn [length]. lia. }
  unfold limit. rewrite take_ge by (rewrite sort_by_length; lia).
  by apply elem_of_sort_by.
Qed.

(** Witness of X17: a command with a 60 s expiry, fetched 10 s later. *)
Lemma create_crawler_command_then_fetch_witness :
  exists c commands',
    create_crawler_command x_user {[1%positive := x_crawler 1 1]} ∅ 1 "restart" None (Some 60) 1 0
      = Ok (c, commands') /\
    exists l, fetch_commands {[1%positive := x_crawler 1 1]} commands' 1 1 (10 * US_PER_SECOND)
                = Ok l /\ c ∈ l.
Proof.
  destruct (create_crawler_command x_user {[1%positive := x_crawler 1 1]} ∅ 1 "restart" None
              (Some 60) 1 0) as [[c commands']|e] eqn:E; [|vm_compute in E; discriminate].
  exists c, commands'. split; [reflexivity|].
  refine (proj2 (proj2 (create_crawler_command_then_fetch x_user _ ∅ commands' 1 "restart" None
                          (Some 60) 1 0 (10 * US_PER_SECOND) c eq_refl E _ _))).
  - intros s [= <-] _. unfold US_PER_SECOND. lia.
  - vm_compute. lia.
Defined.
